(** * s3-db: configuration, bucket-name and key resolution of a Collection

    A shallow embedding of the TypeScript sources

    - [src/db/S3DB.ts]                 (process-wide configuration, bucket FQN),
    - [collection/Collection.ts]       (both revisions of the facade),
    - [collection/behaviors/HeadBehavior.ts],

    and the properties the specification states about them.

    JavaScript strings are modelled by [string] (a sequence of 8-bit
    characters standing for code units), objects used as property bags by
    [gmap string JsValue], [undefined]-able strings by [option string],
    and a [throw] by the [Throw] constructor of [Result]. Logging is purely
    observational and is left out. *)

From Stdlib Require Import Ascii ZArith Lia.
From stdpp Require Import gmap strings pretty.

(** ** Outcomes of fallible code *)

(** What a [throw] statement carries. [TypeError] stands for the engine's
    own error on a property access through [undefined]/[null]; [AWSError]
    is the rejection of a backend call, with the SDK's error code. *)
Inductive JsError : Type :=
  | Error (msg : string)
  | TypeError
  | AWSError (code : string).

Inductive Result (A : Type) : Type :=
  | Ok (a : A)
  | Throw (e : JsError).
Arguments Ok {A} a.
Arguments Throw {A} e.

(** Sequencing: a [throw] in the first step skips the rest. *)
#[global] Instance Result_ret : MRet Result := fun _ a => Ok a.
#[global] Instance Result_bind : MBind Result := fun _ _ k r =>
  match r with
  | Ok a => k a
  | Throw e => Throw e
  end.

(** ** Strings as JavaScript uses them *)

Module JsString.

(** [s.startsWith(p)]. *)
Fixpoint startsWith (s p : string) : bool :=
  match p, s with
  | EmptyString, _ => true
  | String _ _, EmptyString => false
  | String a p', String b s' => if Ascii.eqb a b then startsWith s' p' else false
  end.

(** Remainder of [s] after a prefix of the length of [p]. *)
Fixpoint dropPrefix (s p : string) : string :=
  match p, s with
  | EmptyString, _ => s
  | String _ _, EmptyString => EmptyString
  | String _ p', String _ s' => dropPrefix s' p'
  end.

(** First occurrence of [pat] in [s], scanning from position 0 as
    [String.prototype.indexOf] does: the text before it and after it. *)
Fixpoint splitAt (pat s : string) : option (string * string) :=
  if startsWith s pat then Some (EmptyString, dropPrefix s pat)
  else match s with
       | EmptyString => None
       | String c s' =>
           match splitAt pat s' with
           | Some (pre, post) => Some (String c pre, post)
           | None => None
           end
       end.

(** [GetSubstitution] of ECMAScript for a string search value: there are
    no captures, so [$$], [$&], [$`] and [$'] are the only active
    patterns of the replacement text; every other [$] is literal. *)
Fixpoint getSubstitution (matched pre post tmpl : string) : string :=
  match tmpl with
  | EmptyString => EmptyString
  | String c t =>
      if Ascii.eqb c "$" then
        match t with
        | EmptyString => String c EmptyString
        | String d rest =>
            if Ascii.eqb d "$" then String "$" (getSubstitution matched pre post rest)
            else if Ascii.eqb d "&" then matched +:+ getSubstitution matched pre post rest
            else if Ascii.eqb d "`" then pre +:+ getSubstitution matched pre post rest
            else if Ascii.eqb d "'" then post +:+ getSubstitution matched pre post rest
            else String c (getSubstitution matched pre post t)
        end
      else String c (getSubstitution matched pre post t)
  end.

(** [s.replace(pat, replacement)] with a string [pat]: only the first
    occurrence is replaced; without an occurrence [s] is returned. *)
Definition replace (s pat replacement : string) : string :=
  match splitAt pat s with
  | None => s
  | Some (pre, post) => pre +:+ getSubstitution pat pre post replacement +:+ post
  end.

(** [s.toLowerCase()] on code units below 256: the letters A-Z and the
    Latin-1 capitals from U+00C0 to U+00DE, the multiplication sign U+00D7
    excepted, are moved to their small forms 32 places up; every other
    code unit is kept. *)
Definition lowerChar (c : ascii) : ascii :=
  let n := nat_of_ascii c in
  if ((65 <=? n)%nat && (n <=? 90)%nat)
     || ((192 <=? n)%nat && (n <=? 222)%nat && negb (n =? 215)%nat)
  then ascii_of_nat (n + 32) else c.

Fixpoint toLowerCase (s : string) : string :=
  match s with
  | EmptyString => EmptyString
  | String c s' => String (lowerChar c) (toLowerCase s')
  end.

(** [c] is among the characters of [s]. *)
Fixpoint hasChar (c : ascii) (s : string) : bool :=
  match s with
  | EmptyString => false
  | String d s' => Ascii.eqb d c || hasChar c s'
  end.

(** [pat] occurs somewhere in [s]. *)
Definition occurs (pat s : string) : Prop :=
  ∃ pre post, s = pre +:+ pat +:+ post.

End JsString.

(** ** Values and property bags *)

(** The values that reach the code under study. [VObj nm] is an object (a
    class or constructor function, typically) of which only the [name]
    property is ever read; [nm] is [None] when it has none. Numbers are the
    integers. *)
Inductive JsValue : Type :=
  | VUndefined
  | VNull
  | VBool (b : bool)
  | VNum (n : Z)
  | VStr (s : string)
  | VObj (nm : option string).

#[global] Instance JsValue_eq_dec : EqDecision JsValue.
Proof. solve_decision. Defined.

(** An object used as a bag of own enumerable properties. *)
Abbreviation JsObject := (gmap string JsValue).

(** [o.k]: a missing property reads as [undefined]. *)
Definition prop (o : JsObject) (k : string) : JsValue :=
  default VUndefined (o !! k).

(** [{ ...a, ...b }]: the properties of [b] win. *)
Definition spread (a b : JsObject) : JsObject := b ∪ a.

(** [{ ...a, ...b }] where [b] may be [undefined], which spreads to nothing. *)
Definition spreadOpt (a : JsObject) (b : option JsObject) : JsObject :=
  spread a (default ∅ b).

(** [!!v] *)
Definition truthy (v : JsValue) : bool :=
  match v with
  | VUndefined | VNull => false
  | VBool b => b
  | VNum n => negb (n =? 0)%Z
  | VStr s => negb (String.eqb s "")
  | VObj _ => true
  end.

(** [`${v}`] for an [undefined]-able string. *)
Definition template (v : option string) : string :=
  match v with
  | None => "undefined"
  | Some s => s
  end.

(** [ToString(v)], as applied to the replacement argument of [replace].
    A number is printed with all its digits, as JavaScript prints the
    integers it represents exactly (below 2^53 in magnitude); an object is
    printed as a plain object is. A function given as replacement, which
    [replace] would call, is outside this model, as it is outside the
    declared type [name: string] of [getCollectionFQN]. *)
Definition toString (v : JsValue) : string :=
  match v with
  | VUndefined => "undefined"
  | VNull => "null"
  | VBool true => "true"
  | VBool false => "false"
  | VNum n => pretty n
  | VStr s => s
  | VObj _ => "[object Object]"
  end.

(** ** [S3DB]: the process-wide configuration *)

Module S3DB.

(** The static field [S3DB.configuration]. A field that is unset reads as
    [undefined], here [None]. *)
Record S3DBConfiguration : Type := {
  baseName : option string;
  stage : option string;
  bucketPattern : option string;
  region : option string
}.

(** One optional property of the argument of [update]: not an own property
    of the object, or present with its value ([undefined] included). *)
Inductive Field : Type :=
  | Absent
  | Present (v : option string).

Record Update : Type := {
  u_baseName : Field;
  u_stage : Field;
  u_bucketPattern : Field;
  u_region : Field
}.

(** One property of [{ ...old, ...new }]. *)
Definition spreadField (old : option string) (new : Field) : option string :=
  match new with
  | Absent => old
  | Present v => v
  end.

(** [S3DB.update(configuration)]:
    [this.configuration = { ...this.configuration, ...configuration }]. *)
Definition update (configuration : Update) (this : S3DBConfiguration) : S3DBConfiguration :=
  {| baseName := spreadField (baseName this) (u_baseName configuration);
     stage := spreadField (stage this) (u_stage configuration);
     bucketPattern := spreadField (bucketPattern this) (u_bucketPattern configuration);
     region := spreadField (region this) (u_region configuration) |}.

(** [S3DB.getRegion()]: [this.configuration.region || 'us-west-2']. *)
Definition getRegion (this : S3DBConfiguration) : string :=
  match region this with
  | None => "us-west-2"
  | Some r => if String.eqb r "" then "us-west-2" else r
  end.

(** [S3DB.getCollectionFQN(name)]: four chained [replace] calls on the
    bucket pattern. Calling [replace] on an [undefined] pattern throws. *)
Definition getCollectionFQN (this : S3DBConfiguration) (name : JsValue) : Result string :=
  match bucketPattern this with
  | None => Throw TypeError
  | Some pattern =>
      let s1 := JsString.replace pattern "{{stage}}" (template (stage this)) in
      let s2 := JsString.replace s1 "{{region}}" (getRegion this) in
      let s3 := JsString.replace s2 "{{baseName}}" (template (baseName this)) in
      Ok (JsString.replace s3 "{{bucketName}}" (toString name))
  end.

(** [S3DB.update({ bucketPattern })] *)
Definition withPattern (pattern : string) : Update :=
  {| u_baseName := Absent;
     u_stage := Absent;
     u_bucketPattern := Present (Some pattern);
     u_region := Absent |}.

End S3DB.

(** ** [CollectionBehavior]: what the six behaviours share *)

Module CollectionBehavior.

(** The fields a behaviour is bound to at construction. The storage client
    is stateless and is represented by the calls made through it. *)
Record Behavior : Type := {
  configuration : JsObject;
  fullBucketName : string;
  idPrefix : option string
}.

(** Modelled from the spec: [CollectionBehavior.adjustId] (Behavior.ts is
    not among the sources), the key resolver [toKey(id, prefix)] of
    section 4.3: with an undefined or empty prefix the key is the id; an id
    that already starts with the prefix is kept; otherwise the prefix is
    put in front. *)
Definition adjustId (prefix : option string) (id : string) : string :=
  match prefix with
  | None => id
  | Some p =>
      if String.eqb p "" then id
      else if JsString.startsWith id p then id
      else p +:+ id
  end.

End CollectionBehavior.

(** ** [HeadBehavior] *)

Module HeadBehavior.
Import CollectionBehavior.

Record HeadObjectRequest : Type := {
  Bucket : string;
  Key : string
}.

(** The [parameters] object of [head]. *)
Definition parameters (this : Behavior) (id : string) : HeadObjectRequest :=
  {| Bucket := fullBucketName this; Key := adjustId (idPrefix this) id |}.

Section Client.

(** The storage client: the outcome of [s3.headObject(parameters).promise()]
    (a rejection is a [Throw]), [buildS3Metadata] and [handleError]. *)
Context {HeadObjectOutput S3Metadata : Type}.
Variable headObject : HeadObjectRequest → Result HeadObjectOutput.
Variable buildS3Metadata : HeadObjectOutput → Result S3Metadata.
Variable handleError : JsError → string → string → JsError.

(** [head(id)]: whatever is thrown inside [try] is handed to
    [handleError] together with the bucket name and the id, and the
    result of that is thrown. *)
Definition head (this : Behavior) (id : string) : Result S3Metadata :=
  match (response ← headObject (parameters this id); buildS3Metadata response) with
  | Ok metadata => Ok metadata
  | Throw error => Throw (handleError error (fullBucketName this) id)
  end.

End Client.
End HeadBehavior.

(** ** [ExistsBehavior] *)

Module ExistsBehavior.
Import CollectionBehavior.

Section Client.

Context {HeadObjectOutput : Type}.
Variable headObject : HeadBehavior.HeadObjectRequest → Result HeadObjectOutput.
Variable handleError : JsError → string → string → JsError.
(** Recognises the backend's not-found report. *)
Variable isNotFound : JsError → bool.

(** Modelled from the spec: [ExistsBehavior.exists] (ExistsBehavior.ts is
    not among the sources), section 4.4: the same backend call as Head with
    the result reduced to a boolean; a not-found report resolves to [false]
    instead of propagating; other failures are mapped as in Head. *)
Definition exists_ (this : Behavior) (id : string) : Result bool :=
  match headObject (HeadBehavior.parameters this id) with
  | Ok _ => Ok true
  | Throw error =>
      if isNotFound error then Ok false
      else Throw (handleError error (fullBucketName this) id)
  end.

End Client.
End ExistsBehavior.

(** ** [Collection]: the facade built on the registry *)

Module Collection.
Import CollectionBehavior.

Record Collection : Type := {
  configuration : JsObject;
  idPrefix : option string;
  headBehavior : Behavior;
  existsBehavior : Behavior;
  loadBehavior : Behavior;
  saveBheavior : Behavior;
  deleteBehavior : Behavior;
  findBehavior : Behavior
}.

(** The six behaviour units of a collection. *)
Definition behaviors (this : Collection) : list Behavior :=
  [headBehavior this; existsBehavior this; loadBehavior this;
   saveBheavior this; deleteBehavior this; findBehavior this].

(** [typeof type === 'string' ? type : `${(type as any).name}`]. Reading
    [name] through [undefined] or [null] throws; a primitive has no
    [name]. *)
Definition typeName (type : JsValue) : Result string :=
  match type with
  | VStr s => Ok s
  | VUndefined | VNull => Throw TypeError
  | VBool _ | VNum _ => Ok (template None)
  | VObj nm => Ok (template nm)
  end.

Section Registry.

(** [CollectionRegistry.instance().resolve] and the own properties of
    [new CollectionConfiguration()]; neither class is among the sources. *)
Variable resolve : string → option JsObject.
Variable defaults : JsObject.

(** [{ ...new CollectionConfiguration(), ...resolvedConfiguration, ...{ type } }] *)
Definition mergedConfiguration (type : JsValue) (name : string) : JsObject :=
  let resolvedConfiguration := resolve (JsString.toLowerCase name) in
  spread (spreadOpt defaults resolvedConfiguration) {[ "type" := type ]}.

(** [new Collection(type, idPrefix)], run while the process-wide
    configuration is [s3db]. *)
Definition new (s3db : S3DB.S3DBConfiguration) (type : JsValue) (idPrefix : option string)
  : Result Collection :=
  name ← typeName type;
  if String.eqb name "" then Throw (Error "No type was provided.") else
  let configuration := mergedConfiguration type name in
  if negb (truthy (prop configuration "name")) then
    Throw (Error "The configuration has no name defined, which is used to determine the bucket name.")
  else
  fullBucketName ← S3DB.getCollectionFQN s3db (prop configuration "name");
  let behavior := {| CollectionBehavior.configuration := configuration;
                     fullBucketName := fullBucketName;
                     CollectionBehavior.idPrefix := idPrefix |} in
  Ok {| configuration := configuration;
        idPrefix := idPrefix;
        headBehavior := behavior;
        existsBehavior := behavior;
        loadBehavior := behavior;
        saveBheavior := behavior;
        deleteBehavior := behavior;
        findBehavior := behavior |}.

(** [this.subCollection(prefix, newType)]:
    [new Collection(newType, `${this.idPrefix}${prefix}`)]. *)
Definition subCollection (s3db : S3DB.S3DBConfiguration) (this : Collection)
  (prefix : string) (newType : JsValue) : Result Collection :=
  new s3db newType (Some (template (idPrefix this) +:+ prefix)).

(** [subCollection] applied along a list of prefixes, outermost first. *)
Fixpoint nest (s3db : S3DB.S3DBConfiguration) (this : Collection)
  (prefixes : list string) (newType : JsValue) : Result Collection :=
  match prefixes with
  | [] => Ok this
  | p :: ps => child ← subCollection s3db this p newType; nest s3db child ps newType
  end.

(** *** The process as a state machine

    The mutable state of a process: the static [S3DB.configuration] and the
    collections built so far, addressed by their position. *)
Record World : Type := {
  s3db : S3DB.S3DBConfiguration;
  objects : list Collection
}.

Inductive Call : Type :=
  | NewCollection (type : JsValue) (idPrefix : option string)
  | SubCollection (parent : nat) (prefix : string) (newType : JsValue)
  | S3DBUpdate (configuration : S3DB.Update).

(** Stores a freshly built collection; a throwing constructor stores
    nothing. *)
Definition allocate (w : World) (r : Result Collection) : World :=
  match r with
  | Ok c => {| s3db := s3db w; objects := objects w ++ [c] |}
  | Throw _ => w
  end.

Definition exec (w : World) (call : Call) : World :=
  match call with
  | NewCollection type idPrefix => allocate w (new (s3db w) type idPrefix)
  | SubCollection parent prefix newType =>
      match objects w !! parent with
      | Some this => allocate w (subCollection (s3db w) this prefix newType)
      | None => w
      end
  | S3DBUpdate configuration =>
      {| s3db := S3DB.update configuration (s3db w); objects := objects w |}
  end.

Definition run (w : World) (calls : list Call) : World :=
  foldl exec w calls.

End Registry.

(** The facade's [head] and [exists]: plain forwarding. *)
Section Facade.

Context {HeadObjectOutput S3Metadata : Type}.
Variable headObject : HeadBehavior.HeadObjectRequest → Result HeadObjectOutput.
Variable buildS3Metadata : HeadObjectOutput → Result S3Metadata.
Variable handleError : JsError → string → string → JsError.
Variable isNotFound : JsError → bool.

Definition head (this : Collection) (id : string) : Result S3Metadata :=
  HeadBehavior.head headObject buildS3Metadata handleError (headBehavior this) id.

Definition exists_ (this : Collection) (id : string) : Result bool :=
  ExistsBehavior.exists_ headObject handleError isNotFound (existsBehavior this) id.

End Facade.
End Collection.

(** ** [Collection]: the earlier facade, built on decorator metadata *)

Module DecoratedCollection.
Import CollectionBehavior.

Record Collection : Type := {
  type : JsValue;
  idPrefix : option string;
  headBehavior : Behavior;
  existsBehavior : Behavior;
  loadBehavior : Behavior;
  saveBheavior : Behavior;
  deleteBehavior : Behavior;
  findBehavior : Behavior
}.

Section Metadata.

(** [getMetadata] of utils/Metadata, not among the sources; [None] is a
    falsy answer. *)
Variable getMetadata : JsValue → option JsObject.

Definition new (s3db : S3DB.S3DBConfiguration) (type : JsValue) (idPrefix : option string)
  : Result Collection :=
  match getMetadata type with
  | None => Throw TypeError
  | Some metadata =>
      let name := prop metadata "name" in
      fullBucketName ← S3DB.getCollectionFQN s3db name;
      let behavior := {| CollectionBehavior.configuration := metadata;
                         fullBucketName := fullBucketName;
                         CollectionBehavior.idPrefix := idPrefix |} in
      Ok {| type := type;
            idPrefix := idPrefix;
            headBehavior := behavior;
            existsBehavior := behavior;
            loadBehavior := behavior;
            saveBheavior := behavior;
            deleteBehavior := behavior;
            findBehavior := behavior |}
  end.

Definition subCollection (s3db : S3DB.S3DBConfiguration) (this : Collection)
  (prefix : string) (newType : JsValue) : Result Collection :=
  new s3db newType (Some (template (idPrefix this) +:+ prefix)).

End Metadata.
End DecoratedCollection.

(** ** The specification's reading of templating

    Section 4.2 of the specification describes [fullyQualify(template,
    tokens)] as one left-to-right pass in which every recognised
    placeholder is replaced literally by its token and nothing that a token
    brings in is looked at again. It is written down here only to be
    compared with [S3DB.getCollectionFQN]. *)

Module Templating.

Record Tokens : Type := {
  t_stage : string;
  t_region : string;
  t_baseName : string;
  t_bucketName : string
}.

(** The recognised placeholder at the head of [s], with its token. *)
Definition placeholderAt (tokens : Tokens) (s : string) : option (string * string) :=
  if JsString.startsWith s "{{stage}}" then Some ("{{stage}}", t_stage tokens)
  else if JsString.startsWith s "{{region}}" then Some ("{{region}}", t_region tokens)
  else if JsString.startsWith s "{{baseName}}" then Some ("{{baseName}}", t_baseName tokens)
  else if JsString.startsWith s "{{bucketName}}" then Some ("{{bucketName}}", t_bucketName tokens)
  else None.

(** [skip] counts the characters of a placeholder still to be passed
    over. *)
Fixpoint singlePass (tokens : Tokens) (skip : nat) (s : string) : string :=
  match s with
  | EmptyString => EmptyString
  | String c s' =>
      match skip with
      | S k => singlePass tokens k s'
      | O =>
          match placeholderAt tokens s with
          | Some (placeholder, value) =>
              value +:+ singlePass tokens (String.length placeholder - 1) s'
          | None => String c (singlePass tokens 0 s')
          end
      end
  end.

Definition fullyQualify_spec (template : string) (tokens : Tokens) : string :=
  singlePass tokens 0 template.

(** The tokens [getCollectionFQN] works with. *)
Definition tokensOf (cfg : S3DB.S3DBConfiguration) (name : JsValue) : Tokens :=
  {| t_stage := template (S3DB.stage cfg);
     t_region := S3DB.getRegion cfg;
     t_baseName := template (S3DB.baseName cfg);
     t_bucketName := toString name |}.

(** The four recognised placeholders. *)
Definition placeholders : list string :=
  ["{{stage}}"; "{{region}}"; "{{baseName}}"; "{{bucketName}}"].

End Templating.

(** ** The worked examples of the specification *)

Module Sample.

Definition defaults : JsObject := {[ "pageSize" := VNum 50 ]}.

Definition usersEntry : JsObject :=
  {[ "name" := VStr "users"; "pageSize" := VNum 100 ]}.

Definition registry : gmap string JsObject := {[ "users" := usersEntry ]}.

Definition resolve (name : string) : option JsObject := registry !! name.

Definition s3db : S3DB.S3DBConfiguration :=
  {| S3DB.baseName := Some "app";
     S3DB.stage := Some "prod";
     S3DB.bucketPattern := Some "{{baseName}}-{{stage}}-{{bucketName}}";
     S3DB.region := None |}.

(** A collection as [new Collection('Users', idPrefix)] builds it in this
    setting. *)
Definition usersBehavior (idPrefix : option string) : CollectionBehavior.Behavior :=
  {| CollectionBehavior.configuration :=
       Collection.mergedConfiguration resolve defaults (VStr "Users") "Users";
     CollectionBehavior.fullBucketName := "app-prod-users";
     CollectionBehavior.idPrefix := idPrefix |}.

Definition users (idPrefix : option string) : Collection.Collection :=
  {| Collection.configuration :=
       Collection.mergedConfiguration resolve defaults (VStr "Users") "Users";
     Collection.idPrefix := idPrefix;
     Collection.headBehavior := usersBehavior idPrefix;
     Collection.existsBehavior := usersBehavior idPrefix;
     Collection.loadBehavior := usersBehavior idPrefix;
     Collection.saveBheavior := usersBehavior idPrefix;
     Collection.deleteBehavior := usersBehavior idPrefix;
     Collection.findBehavior := usersBehavior idPrefix |}.

(** [S3DB.update({ stage: 'dev' })] *)
Definition stageDev : S3DB.Update :=
  {| S3DB.u_baseName := S3DB.Absent;
     S3DB.u_stage := S3DB.Present (Some "dev");
     S3DB.u_bucketPattern := S3DB.Absent;
     S3DB.u_region := S3DB.Absent |}.

(** A process-wide configuration whose stage token is itself a
    placeholder. *)
Definition nested : S3DB.S3DBConfiguration :=
  {| S3DB.baseName := Some "app";
     S3DB.stage := Some "{{bucketName}}";
     S3DB.bucketPattern := Some "{{stage}}";
     S3DB.region := None |}.

(** A backend that reports not-found for every key, and an error handler
    that records what it is given. *)
Definition notFound (request : HeadBehavior.HeadObjectRequest) : Result unit :=
  Throw (AWSError "NotFound").

Definition isNotFound (error : JsError) : bool :=
  match error with
  | AWSError code => String.eqb code "NotFound"
  | _ => false
  end.

Definition handleError (error : JsError) (bucket id : string) : JsError :=
  Error (bucket +:+ "/" +:+ id).

Definition buildS3Metadata (response : unit) : Result unit := Ok response.

End Sample.

(** ** Bucket patterns seen as segments

    A bucket pattern as its author writes it: literal text between
    placeholders. This view is used to state what [S3DB.getCollectionFQN]
    returns on such patterns; the function itself works on the flat
    string. *)

Module Segments.

Inductive Placeholder : Type :=
  | Stage
  | Region
  | BaseName
  | BucketName.

#[global] Instance Placeholder_eq_dec : EqDecision Placeholder.
Proof. solve_decision. Defined.

(** The search strings of the four [replace] calls. *)
Definition text (p : Placeholder) : string :=
  match p with
  | Stage => "{{stage}}"
  | Region => "{{region}}"
  | BaseName => "{{baseName}}"
  | BucketName => "{{bucketName}}"
  end.

Inductive Segment : Type :=
  | Lit (s : string)
  | Hole (p : Placeholder).

Definition segmentText (seg : Segment) : string :=
  match seg with
  | Lit s => s
  | Hole p => text p
  end.

(** The pattern string that the segments spell. *)
Fixpoint flatten (segs : list Segment) : string :=
  match segs with
  | [] => ""
  | seg :: rest => segmentText seg +:+ flatten rest
  end.

(** The first hole for [p] filled with [token]. *)
Fixpoint fillFirst (p : Placeholder) (token : string) (segs : list Segment) : list Segment :=
  match segs with
  | [] => []
  | Lit s :: rest => Lit s :: fillFirst p token rest
  | Hole q :: rest =>
      if decide (p = q) then Lit token :: rest
      else Hole q :: fillFirst p token rest
  end.

(** The token of a placeholder. *)
Definition token (tokens : Templating.Tokens) (p : Placeholder) : string :=
  match p with
  | Stage => Templating.t_stage tokens
  | Region => Templating.t_region tokens
  | BaseName => Templating.t_baseName tokens
  | BucketName => Templating.t_bucketName tokens
  end.

(** Every hole filled with its token. *)
Fixpoint render (tokens : Templating.Tokens) (segs : list Segment) : string :=
  match segs with
  | [] => ""
  | Lit s :: rest => s +:+ render tokens rest
  | Hole p :: rest => token tokens p +:+ render tokens rest
  end.

(** The number of holes for [p]. *)
Fixpoint holes (p : Placeholder) (segs : list Segment) : nat :=
  match segs with
  | [] => 0
  | Lit _ :: rest => holes p rest
  | Hole q :: rest => (if decide (p = q) then 1 else 0) + holes p rest
  end.

(** No literal segment holds an opening brace. *)
Fixpoint braceFree (segs : list Segment) : bool :=
  match segs with
  | [] => true
  | Lit s :: rest => negb (JsString.hasChar "{" s) && braceFree rest
  | Hole _ :: rest => braceFree rest
  end.

(** A token with neither an opening brace nor a dollar sign. *)
Definition plain (t : string) : bool :=
  negb (JsString.hasChar "{" t) && negb (JsString.hasChar "$" t).

(** The four fills in the order of the four [replace] calls. *)
Definition fillEach (tokens : Templating.Tokens) (segs : list Segment) : list Segment :=
  fillFirst BucketName (token tokens BucketName)
    (fillFirst BaseName (token tokens BaseName)
       (fillFirst Region (token tokens Region)
          (fillFirst Stage (token tokens Stage) segs))).

(** The pattern ["{{baseName}}-{{stage}}-{{bucketName}}"]. *)
Definition sample : list Segment :=
  [Hole BaseName; Lit "-"; Hole Stage; Lit "-"; Hole BucketName].

End Segments.

(** ** Arguments of [S3DB.update] *)

Module Updates.
Import S3DB.

(** One property of [{ ...first, ...second }] for two argument objects. *)
Definition spreadFields (first second : Field) : Field :=
  match second with
  | Absent => first
  | Present v => Present v
  end.

(** [{ ...first, ...second }] *)
Definition spreadUpdate (first second : Update) : Update :=
  {| u_baseName := spreadFields (u_baseName first) (u_baseName second);
     u_stage := spreadFields (u_stage first) (u_stage second);
     u_bucketPattern := spreadFields (u_bucketPattern first) (u_bucketPattern second);
     u_region := spreadFields (u_region first) (u_region second) |}.

(** [{}] *)
Definition noUpdate : Update :=
  {| u_baseName := Absent;
     u_stage := Absent;
     u_bucketPattern := Absent;
     u_region := Absent |}.

(** [{ baseName, stage, region }], every one of them given. *)
Definition tokensUpdate (baseName stage region : string) : Update :=
  {| u_baseName := Present (Some baseName);
     u_stage := Present (Some stage);
     u_bucketPattern := Absent;
     u_region := Present (Some region) |}.

(** The spread of a list of arguments, the later ones winning. *)
Definition spreadAll (arguments : list Update) : Update :=
  foldl spreadUpdate noUpdate arguments.

End Updates.

(** ** Processes that start without collections *)

Module Process.
Import Collection.

Definition start (s3db : S3DB.S3DBConfiguration) : World :=
  {| Collection.s3db := s3db; objects := [] |}.

(** The type argument of a call that constructs a collection. *)
Definition typeOfCall (call : Call) : option JsValue :=
  match call with
  | NewCollection type _ => Some type
  | SubCollection _ _ newType => Some newType
  | S3DBUpdate _ => None
  end.

Section Registry.

Variable resolve : string → option JsObject.
Variable defaults : JsObject.

(** [call], run in the world [w], is a constructor call that returns the
    collection [c]. *)
Definition constructs (w : World) (call : Call) (c : Collection) : Prop :=
  match call with
  | NewCollection type idPrefix =>
      new resolve defaults (Collection.s3db w) type idPrefix = Ok c
  | SubCollection parent prefix newType =>
      ∃ this, objects w !! parent = Some this ∧
              subCollection resolve defaults (Collection.s3db w) this prefix newType = Ok c
  | S3DBUpdate _ => False
  end.

End Registry.

(** The arguments of the [S3DB.update] calls among [calls], in order. *)
Fixpoint updateArguments (calls : list Call) : list S3DB.Update :=
  match calls with
  | [] => []
  | S3DBUpdate configuration :: rest => configuration :: updateArguments rest
  | _ :: rest => updateArguments rest
  end.

End Process.

(** ** A backend whose answers cannot be turned into metadata *)

Module Probe.

Definition found (request : HeadBehavior.HeadObjectRequest) : Result unit := Ok ().

Definition brokenMetadata (response : unit) : Result unit :=
  Throw (Error "unreadable response").

Definition handleError (error : JsError) (bucket id : string) : JsError :=
  match error with
  | Error msg => Error (msg +:+ " in " +:+ bucket +:+ " at " +:+ id)
  | _ => error
  end.

(** A registry that knows only the name ["undefined"]. *)
Definition resolveUndefined (name : string) : option JsObject :=
  if String.eqb name "undefined" then Some Sample.usersEntry else None.

(** The names [USERS] and [users] with a capital and a small u-umlaut as
    the first code unit, and a registry that knows the second. *)
Definition capitalU : string := String (ascii_of_nat 220) "SERS".

Definition smallU : string := String (ascii_of_nat 252) "sers".

Definition resolveLatin (name : string) : option JsObject :=
  if String.eqb name smallU then Some Sample.usersEntry else None.

(** Decorator metadata without a name. *)
Definition getMetadata (type : JsValue) : option JsObject :=
  Some {[ "pageSize" := VNum 10 ]}.

End Probe.

(** ** Placeholders in general *)

Module Braces.

(** Text with no brace in it. *)
Definition braceless (x : string) : bool :=
  negb (JsString.hasChar "{" x) && negb (JsString.hasChar "}" x).

(** The placeholder spelled with the name [x]. *)
Definition placeholder (x : string) : string := "{{" +:+ x +:+ "}}".

(** The names that [S3DB.getCollectionFQN] searches for. *)
Definition recognised : list string := ["stage"; "region"; "baseName"; "bucketName"].

End Braces.

(** * Properties *)

(** ** Strings *)

Section StringFacts.
Import JsString.

Lemma append_nil_l (s : string) : "" +:+ s = s.
Proof. reflexivity. Qed.

Lemma append_cons (c : ascii) (s t : string) : String c s +:+ t = String c (s +:+ t).
Proof. reflexivity. Qed.

Lemma append_nil_r (s : string) : s +:+ "" = s.
Proof.
  induction s as [|c s IH]; [reflexivity|]. rewrite append_cons. by rewrite IH.
Qed.

Lemma append_assoc (s t u : string) : (s +:+ t) +:+ u = s +:+ t +:+ u.
Proof.
  induction s as [|c s IH]; [reflexivity|].
  rewrite !append_cons. by rewrite IH.
Qed.

Lemma length_append (s t : string) :
  String.length (s +:+ t) = String.length s + String.length t.
Proof.
  induction s as [|c s IH]; [done|]. rewrite append_cons. cbn. by rewrite IH.
Qed.

Lemma startsWith_nil (s : string) : startsWith s "" = true.
Proof. by destruct s. Qed.

Lemma startsWith_app (p s : string) : startsWith (p +:+ s) p = true.
Proof.
  induction p as [|c p IH]; [apply startsWith_nil|].
  rewrite append_cons. cbn. by rewrite Ascii.eqb_refl.
Qed.

Lemma startsWith_split (s p : string) :
  startsWith s p = true → s = p +:+ dropPrefix s p.
Proof.
  revert s. induction p as [|a p IH]; intros s H.
  - by destruct s.
  - destruct s as [|b s]; [discriminate|]. cbn in H |- *.
    destruct (Ascii.eqb_spec a b) as [->|]; [|discriminate].
    rewrite append_cons. f_equal. by apply IH.
Qed.

Lemma startsWith_iff (s p : string) :
  startsWith s p = true ↔ ∃ r, s = p +:+ r.
Proof.
  split.
  - intros H. eexists. by apply startsWith_split.
  - intros [r ->]. apply startsWith_app.
Qed.

Lemma splitAt_unfold (pat s : string) :
  splitAt pat s =
    if startsWith s pat then Some ("", dropPrefix s pat)
    else match s with
         | "" => None
         | String c s' =>
             match splitAt pat s' with
             | Some (pre, post) => Some (String c pre, post)
             | None => None
             end
         end.
Proof. by destruct s. Qed.

Lemma splitAt_Some (pat s pre post : string) :
  splitAt pat s = Some (pre, post) → s = pre +:+ pat +:+ post.
Proof.
  revert pre post. induction s as [|c s IH]; intros pre post;
    rewrite splitAt_unfold; destruct (startsWith _ pat) eqn:E;
    try (intros ?; simplify_eq; rewrite append_nil_l; by apply startsWith_split).
  destruct (splitAt pat s) as [[pre' post']|]; [|discriminate].
  intros ?; simplify_eq. rewrite append_cons. f_equal. by apply IH.
Qed.

Lemma startsWith_false (pat s post : string) :
  startsWith s pat = false → s ≠ pat +:+ post.
Proof. intros E ->. by rewrite startsWith_app in E. Qed.

Lemma splitAt_None (pat s : string) :
  splitAt pat s = None ↔ ¬ occurs pat s.
Proof.
  induction s as [|c s IH]; rewrite splitAt_unfold;
    destruct (startsWith _ pat) eqn:E.
  - split; [discriminate|]. intros H. exfalso. apply H.
    exists "", (dropPrefix "" pat). rewrite append_nil_l. by apply startsWith_split.
  - split; [|done]. intros _ (pre & post & H).
    destruct pre; [|discriminate]. rewrite append_nil_l in H.
    by eapply startsWith_false.
  - split; [discriminate|]. intros H. exfalso. apply H.
    exists "", (dropPrefix (String c s) pat). rewrite append_nil_l.
    by apply startsWith_split.
  - destruct (splitAt pat s) as [[pre' post']|] eqn:Es.
    + split; [discriminate|]. intros H. exfalso. apply H.
      exists (String c pre'), post'. rewrite append_cons. f_equal.
      by apply splitAt_Some.
    + split; [|done]. intros _ (pre & post & H).
      destruct pre as [|c' pre].
      * rewrite append_nil_l in H. by eapply startsWith_false.
      * rewrite append_cons in H. simplify_eq.
        apply IH; [done|]. by exists pre, post.
Qed.

(** The occurrence [splitAt] returns is the leftmost one. *)
Lemma splitAt_first (pat s pre post : string) :
  splitAt pat s = Some (pre, post) →
  ∀ pre' post', s = pre' +:+ pat +:+ post' → String.length pre ≤ String.length pre'.
Proof.
  revert pre post. induction s as [|c s IH]; intros pre post;
    rewrite splitAt_unfold; destruct (startsWith _ pat) eqn:E;
    try (intros ? ? ? _; simplify_eq; cbn; lia).
  destruct (splitAt pat s) as [[p q]|] eqn:Es; [|discriminate].
  intros ? pre' post' H. simplify_eq. destruct pre' as [|c' pre'].
  - rewrite append_nil_l in H. by eapply startsWith_false in E.
  - rewrite append_cons in H. simplify_eq. cbn.
    apply le_n_S. by eapply IH.
Qed.

Lemma replace_absent (s pat replacement : string) :
  ¬ occurs pat s → replace s pat replacement = s.
Proof. intros H. unfold replace. apply splitAt_None in H. by rewrite H. Qed.

(** [replace] rewrites the leftmost occurrence and keeps the text around
    it. *)
Lemma replace_present (s pat replacement : string) :
  occurs pat s →
  ∃ pre post,
    s = pre +:+ pat +:+ post ∧
    replace s pat replacement = pre +:+ getSubstitution pat pre post replacement +:+ post ∧
    ∀ pre' post', s = pre' +:+ pat +:+ post' → String.length pre ≤ String.length pre'.
Proof.
  intros H. unfold replace.
  destruct (splitAt pat s) as [[pre post]|] eqn:E.
  - exists pre, post. split; [by apply splitAt_Some|]. split; [done|].
    by eapply splitAt_first.
  - by apply splitAt_None in E.
Qed.

End StringFacts.

Example replace_first_only :
  JsString.replace "a-x-x" "x" "y" = "a-y-x".
Proof. reflexivity. Qed.

Example replace_dollar_patterns :
  JsString.replace "[x]" "x" "<$&$&>" = "[<xx>]" ∧
  JsString.replace "[x]" "x" "$1$$" = "[$1$]" ∧
  JsString.replace "a.x.b" "x" "$`|$'" = "a.a.|.b.b".
Proof. by split_and!. Qed.

Example toLowerCase_Users : JsString.toLowerCase "Users" = "users".
Proof. reflexivity. Qed.

Example toString_values :
  toString (VNum 50) = "50" ∧ toString VUndefined = "undefined".
Proof. by split_and!. Qed.

Example getRegion_fallback :
  S3DB.getRegion Sample.s3db = "us-west-2".
Proof. reflexivity. Qed.

(** ** Property bags *)

Section SpreadFacts.

(** A property of [{ ...a, ...b }] is read from [b] when [b] has it and
    from [a] otherwise. *)
Lemma lookup_spread (a b : JsObject) (k : string) :
  spread a b !! k = match b !! k with Some v => Some v | None => a !! k end.
Proof.
  unfold spread. rewrite lookup_union.
  by destruct (b !! k), (a !! k).
Qed.

Lemma lookup_spreadOpt (a : JsObject) (b : option JsObject) (k : string) :
  spreadOpt a b !! k =
    match b with
    | Some o => match o !! k with Some v => Some v | None => a !! k end
    | None => a !! k
    end.
Proof.
  unfold spreadOpt. rewrite lookup_spread. destruct b as [o|]; [done|].
  cbn. by rewrite lookup_empty.
Qed.

End SpreadFacts.

(** ** Configuration precedence *)

Section Precedence.
Import Collection.

Variable resolve : string → option JsObject.
Variable defaults : JsObject.

Lemma lookup_mergedConfiguration (type : JsValue) (name k : string) :
  mergedConfiguration resolve defaults type name !! k =
    if decide (k = "type") then Some type
    else match resolve (JsString.toLowerCase name) with
         | Some entry =>
             match entry !! k with Some v => Some v | None => defaults !! k end
         | None => defaults !! k
         end.
Proof.
  unfold mergedConfiguration. rewrite lookup_spread, lookup_spreadOpt.
  case_decide as Hk.
  - subst k. by rewrite lookup_singleton_eq.
  - by rewrite lookup_singleton_ne.
Qed.

(** What a successful constructor call has gone through. *)
Lemma new_Ok_inv (s3db : S3DB.S3DBConfiguration) (type : JsValue)
    (idPrefix : option string) (c : Collection) :
  new resolve defaults s3db type idPrefix = Ok c →
  ∃ name fqn,
    typeName type = Ok name ∧ name ≠ "" ∧
    truthy (prop (mergedConfiguration resolve defaults type name) "name") = true ∧
    S3DB.getCollectionFQN s3db
      (prop (mergedConfiguration resolve defaults type name) "name") = Ok fqn ∧
    configuration c = mergedConfiguration resolve defaults type name ∧
    Collection.idPrefix c = idPrefix ∧
    ∀ b, b ∈ behaviors c →
      b = {| CollectionBehavior.configuration := mergedConfiguration resolve defaults type name;
             CollectionBehavior.fullBucketName := fqn;
             CollectionBehavior.idPrefix := idPrefix |}.
Proof.
  unfold new. destruct (typeName type) as [name|e]; [|discriminate]. cbn.
  destruct (String.eqb_spec name "") as [|Hne]; [discriminate|].
  destruct (truthy _) eqn:Ht; cbn; [|discriminate].
  destruct (S3DB.getCollectionFQN _ _) as [fqn|e] eqn:Hf; cbn; [|discriminate].
  intros [= <-]. exists name, fqn. split_and!; try done.
  intros b Hb. unfold behaviors in Hb. cbn in Hb.
  repeat (apply elem_of_cons in Hb as [->|Hb]; [done|]).
  by apply elem_of_nil in Hb.
Qed.

End Precedence.

(** C1. The constructor merges, in this order, the defaults, the registry
    entry found under the lower-cased name (nothing on a miss) and the
    caller's [{ type }] binding, later ones winning: every property of the
    configuration of a constructed collection is the caller's [type] for the
    key [type], else the registry entry's property when the entry has it,
    else the default. With defaults [{pageSize:50}] and the registry entry
    [{name:"users", pageSize:100}], constructing with ["Users"] succeeds
    with [name = "users"] and [pageSize = 100], next to the caller's [type]
    binding. *)
Theorem configuration_precedence :
  (∀ resolve defaults s3db type idPrefix c,
     Collection.new resolve defaults s3db type idPrefix = Ok c →
     ∃ name,
       Collection.typeName type = Ok name ∧
       ∀ k, Collection.configuration c !! k =
         if decide (k = "type") then Some type
         else match resolve (JsString.toLowerCase name) with
              | Some entry =>
                  match entry !! k with Some v => Some v | None => defaults !! k end
              | None => defaults !! k
              end) ∧
  (∀ resolve defaults type name,
     resolve (JsString.toLowerCase name) = None →
     Collection.mergedConfiguration resolve defaults type name
       = <["type" := type]> defaults) ∧
  (∃ c,
     Collection.new Sample.resolve Sample.defaults
       Sample.s3db (VStr "Users") None = Ok c ∧
     Collection.configuration c
       = <["type" := VStr "Users"]>
           {[ "name" := VStr "users"; "pageSize" := VNum 100 ]} ∧
     prop (Collection.configuration c) "name" = VStr "users" ∧
     prop (Collection.configuration c) "pageSize" = VNum 100).
Proof.
  split_and!.
  - intros resolve defaults s3db type idPrefix c Hc.
    apply new_Ok_inv in Hc as (name & fqn & Hn & _ & _ & _ & -> & _).
    exists name. split; [done|]. intros k. apply lookup_mergedConfiguration.
  - intros resolve defaults type name Hmiss. apply map_eq. intros k.
    rewrite lookup_mergedConfiguration, Hmiss, lookup_insert.
    repeat case_decide; congruence.
  - eexists. split; [vm_compute; reflexivity|]. split_and!.
    + vm_compute. reflexivity.
    + vm_compute. reflexivity.
    + vm_compute. reflexivity.
Qed.

(** The general part of C1 at the worked example. *)
Lemma configuration_precedence_witness :
  ∃ c name,
    Collection.new Sample.resolve Sample.defaults
      Sample.s3db (VStr "Users") None = Ok c ∧
    Collection.typeName (VStr "Users") = Ok name ∧
    Collection.configuration c !! "pageSize" = Some (VNum 100).
Proof.
  destruct configuration_precedence as (Hgen & _ & (c & Hc & _)).
  destruct (Hgen _ _ _ _ _ _ Hc) as (name & Hn & Hk).
  exists c, name. split_and!; [done..|].
  rewrite Hk. injection Hn as <-. reflexivity.
Defined.

(** ** Key resolution *)

Section KeyResolver.
Import CollectionBehavior.

Lemma adjustId_undefined (id : string) : adjustId None id = id.
Proof. reflexivity. Qed.

Lemma adjustId_empty (id : string) : adjustId (Some "") id = id.
Proof. reflexivity. Qed.

Lemma adjustId_prefixed (p r : string) : adjustId (Some p) (p +:+ r) = p +:+ r.
Proof.
  unfold adjustId. destruct (String.eqb p ""); [done|].
  by rewrite startsWith_app.
Qed.

Lemma adjustId_fresh (p id : string) :
  p ≠ "" → (∀ r, id ≠ p +:+ r) → adjustId (Some p) id = p +:+ id.
Proof.
  intros Hp Hid. unfold adjustId.
  destruct (String.eqb_spec p ""); [done|].
  destruct (JsString.startsWith id p) eqn:E; [|done].
  apply startsWith_iff in E as [r ->]. by destruct (Hid r).
Qed.

(** Every key either is the id or is the prefix followed by the id. *)
Lemma adjustId_cases (prefix : option string) (id : string) :
  adjustId prefix id = id ∨
  ∃ p, prefix = Some p ∧ adjustId prefix id = p +:+ id.
Proof.
  destruct prefix as [p|]; [|by left]. unfold adjustId.
  destruct (String.eqb p ""); [by left|].
  destruct (JsString.startsWith id p); [by left|].
  right. by exists p.
Qed.

End KeyResolver.

(** C2. The key resolver is idempotent, [toKey(toKey(i,p),p) = toKey(i,p)]
    for every id and prefix. With an undefined or empty prefix the key is
    the id; an id that already starts with the prefix is its own key, so the
    prefix is never applied twice; otherwise the key is the prefix followed
    by the id. *)
Theorem adjustId_idempotent :
  ∀ (p : option string) (i : string),
    CollectionBehavior.adjustId p (CollectionBehavior.adjustId p i)
      = CollectionBehavior.adjustId p i ∧
    (p = None ∨ p = Some "" → CollectionBehavior.adjustId p i = i) ∧
    (∀ q r, p = Some q → i = q +:+ r → CollectionBehavior.adjustId p i = i) ∧
    (∀ q, p = Some q → q ≠ "" → (∀ r, i ≠ q +:+ r) →
          CollectionBehavior.adjustId p i = q +:+ i).
Proof.
  intros p i. split_and!.
  - destruct (adjustId_cases p i) as [H|(q & -> & ->)]; [by rewrite !H|].
    apply adjustId_prefixed.
  - by intros [->| ->].
  - intros q r -> ->. apply adjustId_prefixed.
  - intros q -> Hq Hi. by apply adjustId_fresh.
Qed.

(** C2 at the prefix ["/users/"]: a bare id, and the key it resolves to. *)
Lemma adjustId_idempotent_witness :
  CollectionBehavior.adjustId (Some "/users/") "1234" = "/users/1234" ∧
  CollectionBehavior.adjustId (Some "/users/") "/users/1234" = "/users/1234" ∧
  CollectionBehavior.adjustId (Some "/users/")
    (CollectionBehavior.adjustId (Some "/users/") "1234")
    = CollectionBehavior.adjustId (Some "/users/") "1234" ∧
  CollectionBehavior.adjustId None "1234" = "1234".
Proof.
  destruct (adjustId_idempotent (Some "/users/") "1234") as (Hidem & _ & _ & Hfresh).
  destruct (adjustId_idempotent (Some "/users/") "/users/1234") as (_ & _ & Hpre & _).
  destruct (adjustId_idempotent None "1234") as (_ & Hnone & _ & _).
  split_and!.
  - change "/users/1234" with ("/users/" +:+ "1234").
    apply (Hfresh "/users/"); [reflexivity|discriminate|].
    intros r H. discriminate H.
  - apply (Hpre "/users/" "1234"); reflexivity.
  - exact Hidem.
  - apply Hnone. by left.
Defined.

(** ** Bucket-name templating *)

Section TemplatingFacts.
Import JsString S3DB.

(** Membership in the list of recognised placeholders. *)
Ltac placeholder_member :=
  unfold Templating.placeholders; rewrite !elem_of_cons; tauto.

(** A replacement text without [$] is inserted as it is. *)
Lemma getSubstitution_literal (matched pre post tmpl : string) :
  hasChar "$" tmpl = false → getSubstitution matched pre post tmpl = tmpl.
Proof.
  induction tmpl as [|c t IH]; [done|]. cbn [hasChar].
  intros [Hc Ht]%orb_false_elim. cbn [getSubstitution].
  rewrite Hc. f_equal. by apply IH.
Qed.

Lemma getCollectionFQN_unfold (this : S3DBConfiguration) (name : JsValue) (pattern : string) :
  bucketPattern this = Some pattern →
  getCollectionFQN this name =
    Ok (replace
          (replace
             (replace
                (replace pattern "{{stage}}" (template (stage this)))
                "{{region}}" (getRegion this))
             "{{baseName}}" (template (baseName this)))
          "{{bucketName}}" (toString name)).
Proof. intros H. unfold getCollectionFQN. by rewrite H. Qed.

(** A pattern in which no recognised placeholder occurs is the bucket
    name. *)
Lemma getCollectionFQN_verbatim (this : S3DBConfiguration) (name : JsValue) (pattern : string) :
  bucketPattern this = Some pattern →
  (∀ ph, ph ∈ Templating.placeholders → ¬ occurs ph pattern) →
  getCollectionFQN this name = Ok pattern.
Proof.
  intros Hp Hfree. rewrite (getCollectionFQN_unfold _ _ _ Hp).
  rewrite (replace_absent pattern "{{stage}}") by (apply Hfree; placeholder_member).
  rewrite (replace_absent pattern "{{region}}") by (apply Hfree; placeholder_member).
  rewrite (replace_absent pattern "{{baseName}}") by (apply Hfree; placeholder_member).
  by rewrite (replace_absent pattern "{{bucketName}}") by (apply Hfree; placeholder_member).
Qed.

Lemma getRegion_default (this : S3DBConfiguration) :
  region this = None ∨ region this = Some "" → getRegion this = "us-west-2".
Proof. unfold getRegion. by intros [->| ->]. Qed.

(** On a pattern without recognised placeholders the single pass of the
    specification changes nothing either. *)
Lemma occurs_tail (pat : string) (c : ascii) (s : string) :
  ¬ occurs pat (String c s) → ¬ occurs pat s.
Proof.
  intros H (pre & post & ->). apply H. exists (String c pre), post.
  by rewrite append_cons.
Qed.

Lemma not_occurs_startsWith (pat s : string) :
  ¬ occurs pat s → startsWith s pat = false.
Proof.
  intros H. destruct (startsWith s pat) eqn:E; [|done].
  destruct H. apply startsWith_iff in E as [r ->]. by exists "", r.
Qed.

Lemma singlePass_verbatim (tokens : Templating.Tokens) (pattern : string) :
  (∀ ph, ph ∈ Templating.placeholders → ¬ occurs ph pattern) →
  Templating.fullyQualify_spec pattern tokens = pattern.
Proof.
  unfold Templating.fullyQualify_spec.
  induction pattern as [|c s IH]; [done|]. intros Hfree.
  cbn [Templating.singlePass]. unfold Templating.placeholderAt.
  rewrite !not_occurs_startsWith by (apply Hfree; placeholder_member).
  f_equal. apply IH. intros ph Hph. eapply occurs_tail. by apply Hfree.
Qed.

End TemplatingFacts.

(** *** Placeholders that no step searches for *)

Section UnrecognisedFacts.
Import JsString Braces.

Lemma hasChar_app (c : ascii) (s t : string) :
  hasChar c (s +:+ t) = hasChar c s || hasChar c t.
Proof.
  induction s as [|d s IH]; [done|]. rewrite append_cons. cbn [hasChar].
  by rewrite IH, orb_assoc.
Qed.

(** Text without an opening brace ends before the next opening brace. *)
Lemma brace_after (w pre t b : string) :
  hasChar "{" w = false → pre +:+ String "{" t = w +:+ b → ∃ r, pre = w +:+ r.
Proof.
  revert pre. induction w as [|c w IH]; intros pre Hw H.
  - by exists pre.
  - cbn [hasChar] in Hw. apply orb_false_elim in Hw as [Hc Hw].
    rewrite append_cons in H. destruct pre as [|c' pre].
    + rewrite append_nil_l in H. by simplify_eq.
    + rewrite append_cons in H. injection H as -> H.
      destruct (IH pre Hw H) as [r ->]. by exists r.
Qed.

(** Two names that end at a closing brace of the same text are equal. *)
Lemma closing_unique (x n t t' : string) :
  hasChar "}" x = false → hasChar "}" n = false →
  x +:+ String "}" t = n +:+ String "}" t' → x = n.
Proof.
  revert n. induction x as [|c x IH]; intros [|d n] Hx Hn H; cbn [hasChar] in *.
  - done.
  - rewrite append_nil_l, append_cons in H. by simplify_eq.
  - rewrite append_nil_l, append_cons in H. by simplify_eq.
  - apply orb_false_elim in Hx as [_ Hx]. apply orb_false_elim in Hn as [_ Hn].
    rewrite !append_cons in H. injection H as -> H. f_equal. by eapply IH.
Qed.

Lemma placeholder_unfold (x rest : string) :
  placeholder x +:+ rest = String "{" (String "{" (x +:+ String "}" (String "}" rest))).
Proof.
  unfold placeholder. by rewrite !append_assoc, !append_cons, !append_nil_l.
Qed.

(** A placeholder that starts where another one starts or inside it is
    that placeholder. *)
Lemma apart_head (x n a b post : string) :
  braceless x = true → braceless n = true → x ≠ n →
  a +:+ placeholder x +:+ b = placeholder n +:+ post →
  ∃ l, a = placeholder n +:+ l.
Proof.
  unfold braceless. intros [Hx1 Hx2]%andb_true_iff [Hn1 Hn2]%andb_true_iff Hne H.
  apply negb_true_iff in Hx1, Hx2, Hn1, Hn2.
  rewrite !placeholder_unfold in H.
  destruct a as [|c1 [|c2 a]].
  - rewrite append_nil_l in H. injection H as H.
    destruct Hne. by eapply closing_unique.
  - rewrite append_cons, append_nil_l in H. injection H as -> H.
    destruct n as [|d n].
    + rewrite append_nil_l in H. discriminate H.
    + rewrite append_cons in H. injection H as <- H. cbn [hasChar] in Hn1.
      by rewrite Ascii.eqb_refl in Hn1.
  - rewrite !append_cons in H. injection H as -> -> H.
    assert (hasChar "{" (n +:+ "}}") = false) as Hw.
    { by rewrite hasChar_app, Hn1. }
    destruct (brace_after (n +:+ "}}") a
                (String "{" (x +:+ String "}" (String "}" b))) post Hw) as [r ->].
    { rewrite H. by rewrite !append_assoc, !append_cons, append_nil_l. }
    exists r. rewrite placeholder_unfold.
    by rewrite !append_assoc, !append_cons, append_nil_l.
Qed.

(** Occurrences of two different placeholders do not overlap. *)
Lemma occurrence_apart (x n a b pre post : string) :
  braceless x = true → braceless n = true → x ≠ n →
  a +:+ placeholder x +:+ b = pre +:+ placeholder n +:+ post →
  (∃ r, pre = a +:+ placeholder x +:+ r) ∨ (∃ l, a = pre +:+ placeholder n +:+ l).
Proof.
  intros Hx Hn Hne. revert pre. induction a as [|c a IH]; intros pre H.
  - left. rewrite append_nil_l in H. symmetry in H.
    destruct (apart_head n x pre post b Hn Hx (not_eq_sym Hne) H) as [l ->].
    by exists l.
  - destruct pre as [|c' pre].
    + right. rewrite append_nil_l in H.
      destruct (apart_head x n (String c a) b post Hx Hn Hne H) as [l ->].
      by exists l.
    + rewrite !append_cons in H. injection H as -> H.
      destruct (IH pre H) as [[r ->]|[l ->]].
      * left. exists r. by rewrite !append_cons.
      * right. exists l. by rewrite !append_cons.
Qed.

(** A [replace] step for one placeholder keeps every occurrence of every
    other placeholder. *)
Lemma replace_keeps_placeholder (x n s tok : string) :
  braceless x = true → braceless n = true → x ≠ n →
  occurs (placeholder x) s →
  occurs (placeholder x) (replace s (placeholder n) tok).
Proof.
  intros Hx Hn Hne (a & b & Hs). unfold replace.
  destruct (splitAt (placeholder n) s) as [[pre post]|] eqn:E; [|by exists a, b].
  apply splitAt_Some in E. rewrite Hs in E.
  destruct (occurrence_apart x n a b pre post Hx Hn Hne E) as [[r ->]|[l ->]].
  - exists a, (r +:+ getSubstitution (placeholder n) (a +:+ placeholder x +:+ r) post tok
                +:+ post).
    by rewrite !append_assoc.
  - rewrite !append_assoc in E. do 2 apply (inj (String.app _)) in E. subst post.
    exists (pre +:+ getSubstitution (placeholder n) pre (l +:+ placeholder x +:+ b) tok
              +:+ l), b.
    by rewrite !append_assoc.
Qed.

Lemma braceless_recognised (n : string) : n ∈ recognised → braceless n = true.
Proof.
  unfold recognised. intros H.
  repeat (apply elem_of_cons in H as [->|H]; [reflexivity|]).
  by apply elem_of_nil in H.
Qed.

(** Templating keeps every placeholder that is not one of the four. *)
Lemma getCollectionFQN_keeps_unrecognised (this : S3DB.S3DBConfiguration)
    (name : JsValue) (pattern out x : string) :
  S3DB.bucketPattern this = Some pattern →
  S3DB.getCollectionFQN this name = Ok out →
  braceless x = true → x ∉ recognised →
  occurs (placeholder x) pattern → occurs (placeholder x) out.
Proof.
  intros Hp Hout Hx Hnot Hocc.
  rewrite (getCollectionFQN_unfold _ _ _ Hp) in Hout. injection Hout as <-.
  assert (∀ n, n ∈ recognised → x ≠ n) as Hne by (intros n Hn ->; done).
  change "{{stage}}" with (placeholder "stage").
  change "{{region}}" with (placeholder "region").
  change "{{baseName}}" with (placeholder "baseName").
  change "{{bucketName}}" with (placeholder "bucketName").
  repeat (apply replace_keeps_placeholder;
          [done
          |apply braceless_recognised; unfold recognised; rewrite !elem_of_cons; tauto
          |apply Hne; unfold recognised; rewrite !elem_of_cons; tauto
          |]).
  done.
Qed.

End UnrecognisedFacts.

(** A token that is itself a placeholder is expanded by a later step,
    which one left-to-right pass over the template would not do. *)
Lemma getCollectionFQN_not_single_pass :
  S3DB.getCollectionFQN Sample.nested (VStr "users") = Ok "users" ∧
  Templating.fullyQualify_spec "{{stage}}"
    (Templating.tokensOf Sample.nested (VStr "users")) = "{{bucketName}}" ∧
  ¬ (∀ this name pattern,
       S3DB.bucketPattern this = Some pattern →
       S3DB.getCollectionFQN this name
         = Ok (Templating.fullyQualify_spec pattern (Templating.tokensOf this name))).
Proof.
  split_and!; [reflexivity..|].
  intros H. specialize (H Sample.nested (VStr "users") "{{stage}}" eq_refl).
  discriminate H.
Qed.

(** C5, as the code has it. With a bucket pattern set, templating never
    fails, and every placeholder that is not one of the four recognised
    ones, a differently-cased one included, is left verbatim: if it occurs
    in the pattern it occurs in the bucket name, whatever the pattern and
    the tokens. Templating is not one literal pass: it is four successive
    [replace] steps, for the stage, the region, the base name and the
    bucket name in this order, each on the output of the step before; a
    step rewrites the leftmost exact (case-sensitive) occurrence of its
    placeholder, keeps the text around it, and inserts a token without [$]
    literally. A pattern in which no recognised placeholder occurs is
    returned as it is, as one left-to-right pass would return it. *)
Theorem getCollectionFQN_sequential :
  ∀ this name pattern,
    S3DB.bucketPattern this = Some pattern →
    (∃ s1 s2 s3 out,
       s1 = JsString.replace pattern "{{stage}}" (template (S3DB.stage this)) ∧
       s2 = JsString.replace s1 "{{region}}" (S3DB.getRegion this) ∧
       s3 = JsString.replace s2 "{{baseName}}" (template (S3DB.baseName this)) ∧
       out = JsString.replace s3 "{{bucketName}}" (toString name) ∧
       S3DB.getCollectionFQN this name = Ok out) ∧
    (∀ s ph token,
       (¬ JsString.occurs ph s → JsString.replace s ph token = s) ∧
       (JsString.occurs ph s →
        ∃ pre post,
          s = pre +:+ ph +:+ post ∧
          (∀ pre' post', s = pre' +:+ ph +:+ post' →
                         String.length pre ≤ String.length pre') ∧
          JsString.replace s ph token
            = pre +:+ JsString.getSubstitution ph pre post token +:+ post ∧
          (JsString.hasChar "$" token = false →
           JsString.replace s ph token = pre +:+ token +:+ post))) ∧
    ((∀ ph, ph ∈ Templating.placeholders → ¬ JsString.occurs ph pattern) →
     S3DB.getCollectionFQN this name = Ok pattern ∧
     Templating.fullyQualify_spec pattern (Templating.tokensOf this name) = pattern) ∧
    (∀ out x,
       S3DB.getCollectionFQN this name = Ok out →
       Braces.braceless x = true → x ∉ Braces.recognised →
       JsString.occurs (Braces.placeholder x) pattern →
       JsString.occurs (Braces.placeholder x) out).
Proof.
  intros this name pattern Hp. split_and!.
  - do 4 eexists. split_and!; try reflexivity.
    by apply getCollectionFQN_unfold.
  - intros s ph token. split; [apply replace_absent|].
    intros Hocc.
    destruct (replace_present s ph token Hocc) as (pre & post & Hs & Hr & Hfirst).
    exists pre, post. split_and!; try done.
    intros Hlit. by rewrite Hr, getSubstitution_literal.
  - intros Hfree. split.
    + by apply getCollectionFQN_verbatim.
    + by apply singlePass_verbatim.
  - intros out x Hout Hx Hnot Hocc.
    by eapply getCollectionFQN_keeps_unrecognised.
Qed.

(** C5 on patterns with an upper-case and an unknown placeholder, which
    stay as they are, also next to a recognised one, and on a repeated
    placeholder, of which the first occurrence alone is rewritten. *)
Lemma getCollectionFQN_sequential_witness :
  S3DB.getCollectionFQN
    (S3DB.update (S3DB.withPattern "{{STAGE}}.{{tenant}}") Sample.s3db) (VStr "users")
    = Ok "{{STAGE}}.{{tenant}}" ∧
  JsString.replace "{{stage}}-{{stage}}" "{{stage}}" "prod" = "prod-{{stage}}" ∧
  S3DB.getCollectionFQN
    (S3DB.update (S3DB.withPattern "{{tenant}}-{{STAGE}}-{{stage}}") Sample.s3db)
    (VStr "users")
    = Ok "{{tenant}}-{{STAGE}}-prod" ∧
  JsString.occurs (Braces.placeholder "tenant") "{{tenant}}-{{STAGE}}-prod" ∧
  JsString.occurs (Braces.placeholder "STAGE") "{{tenant}}-{{STAGE}}-prod".
Proof.
  pose (this := S3DB.update (S3DB.withPattern "{{STAGE}}.{{tenant}}") Sample.s3db).
  pose (that := S3DB.update (S3DB.withPattern "{{tenant}}-{{STAGE}}-{{stage}}") Sample.s3db).
  destruct (getCollectionFQN_sequential that (VStr "users")
              "{{tenant}}-{{STAGE}}-{{stage}}" eq_refl) as (_ & _ & _ & Hkeep).
  assert (∀ x, x ∉ Braces.recognised ↔
               x ≠ "stage" ∧ x ≠ "region" ∧ x ≠ "baseName" ∧ x ≠ "bucketName") as Hrec.
  { intros x. unfold Braces.recognised. rewrite !not_elem_of_cons.
    pose proof (not_elem_of_nil x). tauto. }
  destruct (getCollectionFQN_sequential this (VStr "users") "{{STAGE}}.{{tenant}}" eq_refl)
    as (_ & Hstep & Hverb & _).
  split; [|split; [|split; [reflexivity|split]]].
  3:{ apply (Hkeep "{{tenant}}-{{STAGE}}-prod" "tenant"); [reflexivity|reflexivity| |].
      - apply Hrec. by split_and!.
      - by exists "", "-{{STAGE}}-{{stage}}". }
  3:{ apply (Hkeep "{{tenant}}-{{STAGE}}-prod" "STAGE"); [reflexivity|reflexivity| |].
      - apply Hrec. by split_and!.
      - by exists "{{tenant}}-", "-{{stage}}". }
  - apply Hverb. intros ph Hph. apply splitAt_None.
    unfold Templating.placeholders in Hph.
    repeat (apply elem_of_cons in Hph as [->|Hph]; [reflexivity|]).
    by apply elem_of_nil in Hph.
  - destruct (Hstep "{{stage}}-{{stage}}" "{{stage}}" "prod") as (_ & Hocc).
    destruct Hocc as (pre & post & Hs & Hfirst & _ & Hlit).
    + by exists "", "-{{stage}}".
    + rewrite (Hlit eq_refl).
      assert (pre = "") as ->.
      { specialize (Hfirst "" "-{{stage}}" eq_refl). by destruct pre; [|cbn in Hfirst; lia]. }
      rewrite !append_nil_l in Hs |- *.
      change "{{stage}}-{{stage}}" with ("{{stage}}" +:+ "-{{stage}}") in Hs.
      apply (inj (String.app "{{stage}}")) in Hs. by subst post.
Defined.

(** ** [S3DB.update] *)

(** C10. [S3DB.update] is a partial merge: a field that is not a property
    of the argument keeps its previous value, and a field that is a
    property of the argument takes the argument's value. *)
Theorem update_partial_merge :
  ∀ (this : S3DB.S3DBConfiguration) (configuration : S3DB.Update),
    let updated := S3DB.update configuration this in
    (S3DB.u_baseName configuration = S3DB.Absent →
       S3DB.baseName updated = S3DB.baseName this) ∧
    (S3DB.u_stage configuration = S3DB.Absent →
       S3DB.stage updated = S3DB.stage this) ∧
    (S3DB.u_bucketPattern configuration = S3DB.Absent →
       S3DB.bucketPattern updated = S3DB.bucketPattern this) ∧
    (S3DB.u_region configuration = S3DB.Absent →
       S3DB.region updated = S3DB.region this) ∧
    (∀ v, S3DB.u_baseName configuration = S3DB.Present v → S3DB.baseName updated = v) ∧
    (∀ v, S3DB.u_stage configuration = S3DB.Present v → S3DB.stage updated = v) ∧
    (∀ v, S3DB.u_bucketPattern configuration = S3DB.Present v →
          S3DB.bucketPattern updated = v) ∧
    (∀ v, S3DB.u_region configuration = S3DB.Present v → S3DB.region updated = v).
Proof.
  intros this configuration updated. subst updated. unfold S3DB.update. cbn.
  split_and!; try (intros ->; reflexivity); intros v ->; reflexivity.
Qed.

(** C10 at [S3DB.update({ stage: 'dev' })] on the example configuration. *)
Lemma update_partial_merge_witness :
  S3DB.update Sample.stageDev Sample.s3db =
    {| S3DB.baseName := Some "app";
       S3DB.stage := Some "dev";
       S3DB.bucketPattern := Some "{{baseName}}-{{stage}}-{{bucketName}}";
       S3DB.region := None |}.
Proof.
  destruct (update_partial_merge Sample.s3db Sample.stageDev)
    as (Hb & _ & Hp & Hr & _ & Hs & _ & _).
  specialize (Hb eq_refl). specialize (Hp eq_refl). specialize (Hr eq_refl).
  specialize (Hs (Some "dev") eq_refl).
  destruct (S3DB.update Sample.stageDev Sample.s3db) as [b s p r].
  cbn in Hb, Hp, Hr, Hs. by subst.
Defined.

(** ** Construction *)

Section Construction.
Import Collection.

Variable resolve : string → option JsObject.
Variable defaults : JsObject.

(** A constructor call that throws leaves the process as it was. *)
Lemma exec_new_Throw (w : World) (type : JsValue) (idPrefix : option string) (e : JsError) :
  new resolve defaults (s3db w) type idPrefix = Throw e →
  exec resolve defaults w (NewCollection type idPrefix) = w.
Proof. intros H. cbn. by rewrite H. Qed.

Lemma exec_new_Ok (w : World) (type : JsValue) (idPrefix : option string) (c : Collection) :
  new resolve defaults (s3db w) type idPrefix = Ok c →
  exec resolve defaults w (NewCollection type idPrefix)
    = {| s3db := s3db w; objects := objects w ++ [c] |}.
Proof. intros H. cbn. by rewrite H. Qed.

Lemma new_without_name (s3db : S3DB.S3DBConfiguration) (type : JsValue)
    (idPrefix : option string) (name : string) :
  typeName type = Ok name →
  truthy (prop (mergedConfiguration resolve defaults type name) "name") = false →
  new resolve defaults s3db type idPrefix =
    if String.eqb name "" then Throw (Error "No type was provided.")
    else Throw (Error "The configuration has no name defined, which is used to determine the bucket name.").
Proof.
  intros Hn Ht. unfold new. rewrite Hn. cbn.
  destruct (String.eqb name ""); [done|]. by rewrite Ht.
Qed.

(** Objects are only ever added at the end. *)
Lemma exec_objects_prefix (w : World) (call : Call) :
  ∃ more, objects (exec resolve defaults w call) = objects w ++ more.
Proof.
  destruct call as [type idPrefix|parent prefix newType|configuration]; cbn.
  - destruct (new _ _ _ _ _); cbn; [by eexists|exists []; by rewrite app_nil_r].
  - destruct (objects w !! parent); [|exists []; by rewrite app_nil_r].
    destruct (subCollection _ _ _ _ _ _); cbn; [by eexists|exists []; by rewrite app_nil_r].
  - exists []. by rewrite app_nil_r.
Qed.

Lemma run_objects_prefix (calls : list Call) (w : World) :
  ∃ more, objects (run resolve defaults w calls) = objects w ++ more.
Proof.
  revert w. induction calls as [|call calls IH]; intros w.
  - exists []. cbn. by rewrite app_nil_r.
  - cbn. destruct (IH (exec resolve defaults w call)) as [more2 H2].
    destruct (exec_objects_prefix w call) as [more1 H1].
    exists (more1 ++ more2). unfold run in H2. by rewrite H2, H1, <- (assoc_L (++)).
Qed.

(** Whatever is called later, an object stays what it was when it was
    built. *)
Lemma run_lookup_stable (calls : list Call) (w : World) (r : nat) (c : Collection) :
  objects w !! r = Some c → objects (run resolve defaults w calls) !! r = Some c.
Proof.
  intros H. destruct (run_objects_prefix calls w) as [more ->].
  by apply lookup_app_l_Some.
Qed.

End Construction.

Lemma new_users (idPrefix : option string) :
  Collection.new Sample.resolve Sample.defaults Sample.s3db (VStr "Users") idPrefix
    = Ok (Sample.users idPrefix).
Proof. vm_compute. reflexivity. Qed.

(** C6. Whenever the merged configuration has no usable [name], the
    constructor throws an [Error]: the one about the missing name, or, for
    an empty type name, the one about the missing type that is checked
    first. Nothing is built in that case: the process holds exactly the
    objects it held before. *)
Theorem construction_fails_without_name :
  ∀ resolve defaults (w : Collection.World) type idPrefix name,
    Collection.typeName type = Ok name →
    truthy (prop (Collection.mergedConfiguration resolve defaults type name) "name") = false →
    (∃ msg, Collection.new resolve defaults (Collection.s3db w) type idPrefix
              = Throw (Error msg)) ∧
    (name ≠ "" →
     Collection.new resolve defaults (Collection.s3db w) type idPrefix
       = Throw (Error "The configuration has no name defined, which is used to determine the bucket name.")) ∧
    Collection.exec resolve defaults w (Collection.NewCollection type idPrefix) = w.
Proof.
  intros resolve defaults w type idPrefix name Hn Ht.
  pose proof (new_without_name resolve defaults (Collection.s3db w) type idPrefix name Hn Ht) as H.
  split_and!.
  - rewrite H. destruct (String.eqb name ""); by eexists.
  - intros Hne. rewrite H. by destruct (String.eqb_spec name "").
  - destruct (String.eqb name "") in H; by eapply exec_new_Throw.
Qed.

(** C6 for a type that the registry of the example does not know. *)
Lemma construction_fails_without_name_witness :
  Collection.new Sample.resolve Sample.defaults Sample.s3db (VStr "Orders") None
    = Throw (Error "The configuration has no name defined, which is used to determine the bucket name.").
Proof.
  pose (w := {| Collection.s3db := Sample.s3db; Collection.objects := [] |}).
  destruct (construction_fails_without_name Sample.resolve Sample.defaults w
              (VStr "Orders") None "Orders") as (_ & H & _).
  - reflexivity.
  - vm_compute. reflexivity.
  - apply H. discriminate.
Defined.

(** ** Sub-collections *)

Section SubCollections.
Import Collection.

Variable resolve : string → option JsObject.
Variable defaults : JsObject.

Lemma new_idPrefix (s3db : S3DB.S3DBConfiguration) (type : JsValue)
    (idPrefix : option string) (c : Collection) :
  new resolve defaults s3db type idPrefix = Ok c →
  Collection.idPrefix c = idPrefix ∧
  ∀ b, b ∈ behaviors c → CollectionBehavior.idPrefix b = idPrefix.
Proof.
  intros H. apply new_Ok_inv in H as (name & fqn & _ & _ & _ & _ & _ & Hp & Hb).
  split; [done|]. intros b Hin. by rewrite (Hb b Hin).
Qed.

Lemma subCollection_idPrefix (s3db : S3DB.S3DBConfiguration) (this child : Collection)
    (prefix : string) (newType : JsValue) :
  subCollection resolve defaults s3db this prefix newType = Ok child →
  Collection.idPrefix child = Some (template (Collection.idPrefix this) +:+ prefix).
Proof. unfold subCollection. intros H. by apply new_idPrefix in H as [-> _]. Qed.

(** Nesting along a list of prefixes ends at the interpolated prefix of
    the outermost collection followed by all of them. *)
Lemma nest_idPrefix (s3db : S3DB.S3DBConfiguration) (prefixes : list string)
    (this c : Collection) (newType : JsValue) :
  prefixes ≠ [] →
  nest resolve defaults s3db this prefixes newType = Ok c →
  Collection.idPrefix c
    = Some (template (Collection.idPrefix this) +:+ foldr String.app "" prefixes).
Proof.
  revert this. induction prefixes as [|p ps IH]; intros this Hne; [done|].
  cbn [nest]. destruct (subCollection _ _ _ _ _ _) as [child|e] eqn:Hc; [|discriminate].
  cbn. apply subCollection_idPrefix in Hc.
  destruct ps as [|p' ps].
  - cbn. intros [= <-]. rewrite Hc. by rewrite append_nil_r.
  - intros H. apply IH in H; [|done]. rewrite H, Hc. cbn [template foldr].
    by rewrite append_assoc.
Qed.

(** Nesting and one call with the concatenated prefixes end at the same
    prefix. *)
Lemma nest_concat (s3db : S3DB.S3DBConfiguration) (prefixes : list string)
    (this nested direct : Collection) (newType : JsValue) :
  prefixes ≠ [] →
  nest resolve defaults s3db this prefixes newType = Ok nested →
  subCollection resolve defaults s3db this (foldr String.app "" prefixes) newType = Ok direct →
  Collection.idPrefix nested = Collection.idPrefix direct.
Proof.
  intros Hne Hn Hd. apply nest_idPrefix in Hn; [|done].
  apply subCollection_idPrefix in Hd. congruence.
Qed.

End SubCollections.



(** C3, evaluated where the code departs from it. From a collection built
    without a prefix, [subCollection(a)] and then [subCollection(b)] end at
    the prefix ["undefined"] followed by [a] and [b], which is never the
    prefix [a + b] that a collection constructed with it has. For the
    [Users] collection of the example and the prefixes ["a/"] and ["b/"]
    the two prefixes are ["undefineda/b/"] and ["a/b/"], and the keys of
    the same id differ accordingly. *)
Theorem subCollection_composition_unprefixed :
  (∀ resolve defaults s3db (root nested direct : Collection.Collection)
     (a b : string) (t : JsValue),
     Collection.idPrefix root = None →
     Collection.nest resolve defaults s3db root [a; b] t = Ok nested →
     Collection.new resolve defaults s3db t (Some (a +:+ b)) = Ok direct →
     Collection.idPrefix nested = Some ("undefined" +:+ a +:+ b) ∧
     Collection.idPrefix direct = Some (a +:+ b) ∧
     Collection.idPrefix nested ≠ Collection.idPrefix direct) ∧
  Collection.new Sample.resolve Sample.defaults Sample.s3db (VStr "Users") None
    = Ok (Sample.users None) ∧
  Collection.nest Sample.resolve Sample.defaults Sample.s3db
    (Sample.users None) ["a/"; "b/"] (VStr "Users")
    = Ok (Sample.users (Some "undefineda/b/")) ∧
  Collection.new Sample.resolve Sample.defaults Sample.s3db (VStr "Users") (Some "a/b/")
    = Ok (Sample.users (Some "a/b/")) ∧
  CollectionBehavior.adjustId
    (Collection.idPrefix (Sample.users (Some "undefineda/b/"))) "1234"
    = "undefineda/b/1234" ∧
  CollectionBehavior.adjustId
    (Collection.idPrefix (Sample.users (Some "a/b/"))) "1234"
    = "a/b/1234".
Proof.
  split_and!; try apply new_users; try reflexivity.
  intros resolve defaults s3db root nested direct a b t Hroot Hn Hd.
  apply nest_idPrefix in Hn; [|done]. apply new_idPrefix in Hd as [Hd _].
  rewrite Hroot in Hn. cbn [template foldr] in Hn. rewrite append_nil_r in Hn.
  split_and!; [done..|].
  rewrite Hn, Hd. intros [= H]. apply (f_equal String.length) in H.
  rewrite length_append in H. cbn in H. lia.
Qed.

(** C3 on the collections of the example. *)
Lemma subCollection_composition_unprefixed_witness :
  Collection.idPrefix (Sample.users (Some "undefineda/b/"))
    ≠ Collection.idPrefix (Sample.users (Some "a/b/")).
Proof.
  destruct subCollection_composition_unprefixed as (Hgen & _ & Hnest & Hdirect & _).
  destruct (Hgen Sample.resolve Sample.defaults Sample.s3db (Sample.users None)
              (Sample.users (Some "undefineda/b/")) (Sample.users (Some "a/b/"))
              "a/" "b/" (VStr "Users")) as (_ & _ & H).
  - reflexivity.
  - exact Hnest.
  - exact Hdirect.
  - exact H.
Defined.

(** ** The configuration snapshot *)

(** C8. The bucket name of a collection is computed from the process-wide
    configuration as it is when the constructor runs, and all six
    behaviours are bound to that text. Whatever is called afterwards,
    [S3DB.update] included, the collection stays the object that was built,
    so its operations keep addressing that bucket; a collection built after
    an update is bound to the bucket name that the updated configuration
    gives. *)
Theorem bucket_name_snapshot :
  ∀ resolve defaults (w : Collection.World) type idPrefix (c : Collection.Collection)
    (calls : list Collection.Call),
    Collection.new resolve defaults (Collection.s3db w) type idPrefix = Ok c →
    ∃ fqn,
      S3DB.getCollectionFQN (Collection.s3db w) (prop (Collection.configuration c) "name")
        = Ok fqn ∧
      (∀ b, b ∈ Collection.behaviors c → CollectionBehavior.fullBucketName b = fqn) ∧
      (∀ id, HeadBehavior.Bucket (HeadBehavior.parameters (Collection.headBehavior c) id)
             = fqn) ∧
      Collection.objects
        (Collection.run resolve defaults
           (Collection.exec resolve defaults w (Collection.NewCollection type idPrefix))
           calls)
        !! length (Collection.objects w) = Some c ∧
      (∀ u c',
         Collection.new resolve defaults (S3DB.update u (Collection.s3db w)) type idPrefix
           = Ok c' →
         ∀ b, b ∈ Collection.behaviors c' →
           S3DB.getCollectionFQN (S3DB.update u (Collection.s3db w))
             (prop (Collection.configuration c') "name")
             = Ok (CollectionBehavior.fullBucketName b)).
Proof.
  intros resolve defaults w type idPrefix c calls Hc.
  pose proof Hc as (name & fqn & _ & _ & _ & Hfqn & Hcfg & _ & Hb)%new_Ok_inv.
  exists fqn. split_and!.
  - by rewrite Hcfg.
  - intros b Hin. by rewrite (Hb b Hin).
  - intros id. cbn. rewrite (Hb (Collection.headBehavior c)); [done|].
    unfold Collection.behaviors. apply list_elem_of_here.
  - apply run_lookup_stable. rewrite (exec_new_Ok _ _ _ _ _ _ Hc). cbn.
    by rewrite lookup_app_r, Nat.sub_diag.
  - intros u c' Hc' b Hin.
    apply new_Ok_inv in Hc' as (name' & fqn' & _ & _ & _ & Hfqn' & Hcfg' & _ & Hb').
    by rewrite Hcfg', (Hb' b Hin).
Qed.

(** C8 on the example: a [Users] collection, then
    [S3DB.update({ stage: 'dev' })], then a second [Users] collection. *)
Lemma bucket_name_snapshot_witness :
  let w := {| Collection.s3db := Sample.s3db; Collection.objects := [] |} in
  let w' := Collection.run Sample.resolve Sample.defaults w
              [Collection.NewCollection (VStr "Users") None;
               Collection.S3DBUpdate Sample.stageDev;
               Collection.NewCollection (VStr "Users") None] in
  Collection.objects w' !! 0 = Some (Sample.users None) ∧
  (CollectionBehavior.fullBucketName ∘ Collection.headBehavior) <$> Collection.objects w'
    = ["app-prod-users"; "app-dev-users"].
Proof.
  intros w w'. split.
  - destruct (bucket_name_snapshot Sample.resolve Sample.defaults w (VStr "Users") None
                (Sample.users None)
                [Collection.S3DBUpdate Sample.stageDev;
                 Collection.NewCollection (VStr "Users") None])
      as (fqn & _ & _ & _ & H & _).
    + apply new_users.
    + exact H.
  - vm_compute. reflexivity.
Defined.

(** ** Head and Exists *)

(** With a backend that reports not-found, [head] throws what the error
    handler builds; it does not resolve to anything. *)
Lemma head_not_found_throws :
  Collection.head Sample.notFound Sample.buildS3Metadata Sample.handleError
    (Sample.users None) "1234"
    = Throw (Error "app-prod-users/1234") ∧
  ¬ ∃ metadata,
      Collection.head Sample.notFound Sample.buildS3Metadata Sample.handleError
        (Sample.users None) "1234" = Ok metadata.
Proof.
  split; [reflexivity|]. intros [metadata H]. discriminate H.
Qed.

(** C7, as the code has it. When the backend reports not-found,
    [exists(id)] resolves to [false]. [head(id)] resolves, to the metadata,
    only when the backend call and the building of the metadata succeed;
    every backend error, not-found included, makes it throw the error that
    the client's handler builds from the backend error, the bucket name and
    the id as the caller gave it. *)
Theorem head_exists_not_found :
  ∀ (HeadObjectOutput S3Metadata : Type)
    (headObject : HeadBehavior.HeadObjectRequest → Result HeadObjectOutput)
    (buildS3Metadata : HeadObjectOutput → Result S3Metadata)
    (handleError : JsError → string → string → JsError)
    (isNotFound : JsError → bool)
    (this : Collection.Collection) (id : string),
    (∀ e,
       headObject (HeadBehavior.parameters (Collection.existsBehavior this) id) = Throw e →
       isNotFound e = true →
       Collection.exists_ headObject handleError isNotFound this id = Ok false) ∧
    (∀ e,
       headObject (HeadBehavior.parameters (Collection.headBehavior this) id) = Throw e →
       Collection.head headObject buildS3Metadata handleError this id
         = Throw (handleError e
                    (CollectionBehavior.fullBucketName (Collection.headBehavior this)) id)) ∧
    (∀ metadata,
       Collection.head headObject buildS3Metadata handleError this id = Ok metadata ↔
       ∃ response,
         headObject (HeadBehavior.parameters (Collection.headBehavior this) id) = Ok response ∧
         buildS3Metadata response = Ok metadata).
Proof.
  intros O M headObject buildS3Metadata handleError isNotFound this id. split_and!.
  - intros e He Hnf. unfold Collection.exists_, ExistsBehavior.exists_.
    by rewrite He, Hnf.
  - intros e He. unfold Collection.head, HeadBehavior.head. by rewrite He.
  - intros metadata. unfold Collection.head, HeadBehavior.head.
    destruct (headObject _) as [response|e]; cbn.
    + destruct (buildS3Metadata response) as [m|e] eqn:Hb.
      * split; [intros [= <-]; by exists response|].
        intros (r & [= <-] & Hr). congruence.
      * split; [discriminate|]. intros (r & [= <-] & Hr). congruence.
    + split; [discriminate|]. by intros (r & Hr & _).
Qed.

(** C7 on the backend of the example. *)
Lemma head_exists_not_found_witness :
  Collection.exists_ Sample.notFound Sample.handleError Sample.isNotFound
    (Sample.users None) "1234" = Ok false ∧
  Collection.head Sample.notFound Sample.buildS3Metadata Sample.handleError
    (Sample.users None) "1234"
    = Throw (Error "app-prod-users/1234").
Proof.
  destruct (head_exists_not_found unit unit Sample.notFound Sample.buildS3Metadata
              Sample.handleError Sample.isNotFound (Sample.users None) "1234")
    as (Hex & Hhead & _).
  split.
  - apply (Hex (AWSError "NotFound")); reflexivity.
  - apply (Hhead (AWSError "NotFound")). reflexivity.
Defined.

(** * Further properties of the code *)

(** ** Patterns made of literal text and placeholders *)

Section SegmentFacts.
Import JsString Segments.

Lemma text_head (p : Placeholder) : ∃ t, text p = String "{" t.
Proof. destruct p; by eexists. Qed.

Lemma splitAt_step (pat : string) (c : ascii) (s : string) :
  startsWith (String c s) pat = false →
  splitAt pat (String c s) =
    match splitAt pat s with
    | Some (pre, post) => Some (String c pre, post)
    | None => None
    end.
Proof. intros H. by rewrite splitAt_unfold, H. Qed.

(** A placeholder is not found inside brace-free text. *)
Lemma splitAt_literal (p : Placeholder) (l s : string) :
  hasChar "{" l = false →
  splitAt (text p) (l +:+ s) =
    match splitAt (text p) s with
    | Some (pre, post) => Some (l +:+ pre, post)
    | None => None
    end.
Proof.
  induction l as [|c l IH]; intros Hl.
  - rewrite append_nil_l. by destruct (splitAt _ s) as [[??]|].
  - cbn [hasChar] in Hl. apply orb_false_elim in Hl as [Hc Hl].
    rewrite append_cons, splitAt_step.
    + rewrite (IH Hl). by destruct (splitAt _ s) as [[??]|].
    + destruct (text_head p) as [t ->]. cbn [startsWith].
      rewrite Ascii.eqb_sym. by rewrite Hc.
Qed.

(** Nor inside another placeholder. *)
Lemma splitAt_other (p q : Placeholder) (s : string) :
  p ≠ q →
  splitAt (text p) (text q +:+ s) =
    match splitAt (text p) s with
    | Some (pre, post) => Some (text q +:+ pre, post)
    | None => None
    end.
Proof.
  intros Hpq.
  destruct p, q; try done; cbn [text];
    repeat (rewrite append_cons, splitAt_step by reflexivity);
    rewrite append_nil_l; by destruct (splitAt _ s) as [[??]|].
Qed.

Lemma dropPrefix_app (p s : string) : dropPrefix (p +:+ s) p = s.
Proof.
  induction p as [|c p IH]; [by destruct s|]. by rewrite append_cons.
Qed.

Lemma splitAt_self (pat s : string) : splitAt pat (pat +:+ s) = Some ("", s).
Proof. by rewrite splitAt_unfold, startsWith_app, dropPrefix_app. Qed.

Lemma splitAt_empty (p : Placeholder) : splitAt (text p) "" = None.
Proof. by destruct p. Qed.

Lemma flatten_app (a b : list Segment) : flatten (a ++ b) = flatten a +:+ flatten b.
Proof.
  induction a as [|seg a IH]; [done|]. cbn [flatten app]. by rewrite IH, append_assoc.
Qed.

(** One [replace] step fills the first hole of its placeholder and leaves
    every other segment alone. *)
Lemma replace_flatten (p : Placeholder) (tok : string) (segs : list Segment) :
  braceFree segs = true → hasChar "$" tok = false →
  replace (flatten segs) (text p) tok = flatten (fillFirst p tok segs).
Proof.
  intros Hwf Htok. unfold replace.
  assert (match splitAt (text p) (flatten segs) with
          | Some (pre, post) => pre +:+ tok +:+ post
          | None => flatten segs
          end = flatten (fillFirst p tok segs)) as <-.
  { induction segs as [|[l|q] segs IH]; cbn [flatten fillFirst segmentText].
    - by rewrite splitAt_empty.
    - cbn [braceFree] in Hwf. apply andb_true_iff in Hwf as [Hl Hwf].
      apply negb_true_iff in Hl. rewrite (splitAt_literal _ _ _ Hl), <- (IH Hwf).
      destruct (splitAt _ (flatten segs)) as [[pre post]|]; [|done].
      by rewrite append_assoc.
    - cbn [braceFree] in Hwf. case_decide as Hpq.
      + subst q. by rewrite splitAt_self.
      + rewrite (splitAt_other _ _ _ Hpq). cbn [flatten segmentText].
        rewrite <- (IH Hwf).
        destruct (splitAt _ (flatten segs)) as [[pre post]|]; [|done].
        by rewrite append_assoc. }
  destruct (splitAt _ _) as [[pre post]|]; [|done].
  by rewrite getSubstitution_literal.
Qed.

Lemma braceFree_fillFirst (p : Placeholder) (tok : string) (segs : list Segment) :
  braceFree segs = true → hasChar "{" tok = false →
  braceFree (fillFirst p tok segs) = true.
Proof.
  intros Hwf Htok. induction segs as [|[l|q] segs IH]; cbn [fillFirst braceFree] in *.
  - done.
  - apply andb_true_iff in Hwf as [Hl Hwf]. by rewrite Hl, IH.
  - case_decide; cbn [braceFree]; [by rewrite Htok|by apply IH].
Qed.

End SegmentFacts.

Section FillFacts.
Import JsString Segments.

Lemma fillFirst_id (p : Placeholder) (tok : string) (segs : list Segment) :
  holes p segs = 0 → fillFirst p tok segs = segs.
Proof.
  induction segs as [|[l|q] segs IH]; cbn [holes fillFirst]; intros H.
  - done.
  - by rewrite IH.
  - case_decide; [lia|]. by rewrite IH.
Qed.

Lemma holes_fillFirst_ne (p q : Placeholder) (tok : string) (segs : list Segment) :
  p ≠ q → holes p (fillFirst q tok segs) = holes p segs.
Proof.
  intros Hpq. induction segs as [|[l|r] segs IH]; cbn [holes fillFirst].
  - done.
  - done.
  - destruct (decide (q = r)) as [->|Hqr]; cbn [holes].
    + by rewrite decide_False.
    + by rewrite IH.
Qed.

(** With at most one hole per placeholder, the four fills fill every
    hole. *)
Lemma flatten_fillEach (tokens : Templating.Tokens) (segs : list Segment) :
  (∀ p, holes p segs ≤ 1) → flatten (fillEach tokens segs) = render tokens segs.
Proof.
  induction segs as [|[l|q] segs IH]; intros H.
  - done.
  - unfold fillEach in *. cbn [fillFirst flatten render segmentText]. f_equal.
    apply IH. intros p. apply (H p).
  - assert (holes q segs = 0) as Hq.
    { specialize (H q). cbn [holes] in H. rewrite decide_True in H by done. lia. }
    assert (∀ p, holes p segs ≤ 1) as Hrest.
    { intros p. specialize (H p). cbn [holes] in H. lia. }
    cbn [render]. rewrite <- (IH Hrest). unfold fillEach.
    destruct q;
      repeat first
        [ progress cbn [fillFirst flatten segmentText token]
        | rewrite decide_True by done
        | rewrite decide_False by done ].
    + by rewrite (fillFirst_id Stage _ segs Hq).
    + rewrite (fillFirst_id Region _ (fillFirst Stage _ segs)); [done|].
      by rewrite holes_fillFirst_ne.
    + rewrite (fillFirst_id BaseName _ (fillFirst Region _ (fillFirst Stage _ segs)));
        [done|]. by rewrite !holes_fillFirst_ne.
    + rewrite (fillFirst_id BucketName _
                 (fillFirst BaseName _ (fillFirst Region _ (fillFirst Stage _ segs))));
        [done|]. by rewrite !holes_fillFirst_ne.
Qed.

Lemma getCollectionFQN_fillEach (this : S3DB.S3DBConfiguration) (name : JsValue)
    (segs : list Segment) :
  S3DB.bucketPattern this = Some (flatten segs) →
  braceFree segs = true →
  (∀ p, plain (token (Templating.tokensOf this name) p) = true) →
  S3DB.getCollectionFQN this name
    = Ok (flatten (fillEach (Templating.tokensOf this name) segs)).
Proof.
  intros Hp Hwf Htok.
  assert (∀ p, hasChar "{" (token (Templating.tokensOf this name) p) = false
               ∧ hasChar "$" (token (Templating.tokensOf this name) p) = false) as Hplain.
  { intros p. specialize (Htok p). unfold plain in Htok.
    apply andb_true_iff in Htok as [?%negb_true_iff ?%negb_true_iff]. done. }
  rewrite (getCollectionFQN_unfold _ _ _ Hp). unfold fillEach. f_equal.
  change "{{stage}}" with (text Stage). change "{{region}}" with (text Region).
  change "{{baseName}}" with (text BaseName). change "{{bucketName}}" with (text BucketName).
  change (template (S3DB.stage this)) with (token (Templating.tokensOf this name) Stage).
  change (S3DB.getRegion this) with (token (Templating.tokensOf this name) Region).
  change (template (S3DB.baseName this)) with (token (Templating.tokensOf this name) BaseName).
  change (toString name) with (token (Templating.tokensOf this name) BucketName).
  rewrite !replace_flatten; try done; try apply Hplain;
    repeat (apply braceFree_fillFirst; [|apply Hplain]); done.
Qed.

End FillFacts.

Section IdempotenceFacts.
Import JsString Segments.

Lemma render_braceless (tokens : Templating.Tokens) (segs : list Segment) :
  braceFree segs = true →
  (∀ p, plain (token tokens p) = true) →
  hasChar "{" (render tokens segs) = false.
Proof.
  intros Hwf Htok. induction segs as [|[l|q] segs IH]; cbn [render braceFree] in *.
  - done.
  - apply andb_true_iff in Hwf as [Hl Hwf]. apply negb_true_iff in Hl.
    by rewrite hasChar_app, Hl, IH.
  - specialize (Htok q) as Hq. unfold plain in Hq.
    apply andb_true_iff in Hq as [Hq%negb_true_iff _].
    by rewrite hasChar_app, Hq, IH.
Qed.

Lemma braceless_no_placeholder (s ph : string) :
  hasChar "{" s = false → ph ∈ Templating.placeholders → ¬ occurs ph s.
Proof.
  intros Hs Hph (pre & post & ->). rewrite !hasChar_app in Hs.
  apply orb_false_elim in Hs as [_ Hs]. apply orb_false_elim in Hs as [Hs _].
  unfold Templating.placeholders in Hph.
  repeat (apply elem_of_cons in Hph as [->|Hph]; [discriminate Hs|]).
  by apply elem_of_nil in Hph.
Qed.

End IdempotenceFacts.

(** A pattern that names a placeholder twice: its output still holds the
    second occurrence, and templating the output again changes it. *)
Lemma bucket_templating_not_idempotent :
  S3DB.getCollectionFQN
    (S3DB.update (S3DB.withPattern "{{stage}}-{{stage}}") Sample.s3db) (VStr "users")
    = Ok "prod-{{stage}}" ∧
  S3DB.getCollectionFQN
    (S3DB.update (S3DB.withPattern "prod-{{stage}}")
       (S3DB.update (S3DB.withPattern "{{stage}}-{{stage}}") Sample.s3db)) (VStr "users")
    = Ok "prod-prod" ∧
  ¬ (∀ this name out,
       S3DB.getCollectionFQN this name = Ok out →
       S3DB.getCollectionFQN (S3DB.update (S3DB.withPattern out) this) name = Ok out).
Proof.
  split_and!; [reflexivity..|].
  intros H.
  specialize (H (S3DB.update (S3DB.withPattern "{{stage}}-{{stage}}") Sample.s3db)
                (VStr "users") "prod-{{stage}}" eq_refl).
  discriminate H.
Qed.

(** C4, as the code has it. Templating is a function of the process-wide
    configuration and the collection name. For the pattern
    ["{{baseName}}-{{stage}}-{{bucketName}}"] with base name ["app"], stage
    ["prod"] and bucket name ["users"] the result is exactly
    ["app-prod-users"], and templating that result again, whatever the
    tokens, returns it unchanged. In general, templating an output again
    returns it unchanged when no recognised placeholder is left in it.
    That is so for every pattern made of literal text without an opening
    brace and of placeholders, each written at most once, when the tokens
    hold neither an opening brace nor a dollar sign: the output is then the
    pattern with every placeholder replaced by its token. *)
Theorem bucket_templating_idempotent :
  S3DB.getCollectionFQN Sample.s3db (VStr "users") = Ok "app-prod-users" ∧
  (∀ this name,
     S3DB.getCollectionFQN (S3DB.update (S3DB.withPattern "app-prod-users") this) name
       = Ok "app-prod-users") ∧
  (∀ this name out,
     S3DB.getCollectionFQN this name = Ok out →
     (∀ ph, ph ∈ Templating.placeholders → ¬ JsString.occurs ph out) →
     S3DB.getCollectionFQN (S3DB.update (S3DB.withPattern out) this) name = Ok out) ∧
  (∀ this name segs,
     S3DB.bucketPattern this = Some (Segments.flatten segs) →
     Segments.braceFree segs = true →
     (∀ p, Segments.holes p segs ≤ 1) →
     (∀ p, Segments.plain (Segments.token (Templating.tokensOf this name) p) = true) →
     ∃ out,
       S3DB.getCollectionFQN this name = Ok out ∧
       out = Segments.render (Templating.tokensOf this name) segs ∧
       (∀ ph, ph ∈ Templating.placeholders → ¬ JsString.occurs ph out) ∧
       S3DB.getCollectionFQN (S3DB.update (S3DB.withPattern out) this) name = Ok out).
Proof.
  split_and!.
  - reflexivity.
  - intros this name. reflexivity.
  - intros this name out _ Hfree. by apply getCollectionFQN_verbatim.
  - intros this name segs Hp Hwf Hone Htok.
    exists (Segments.render (Templating.tokensOf this name) segs).
    assert (∀ ph, ph ∈ Templating.placeholders →
                  ¬ JsString.occurs ph (Segments.render (Templating.tokensOf this name) segs))
      as Hfree.
    { intros ph Hph. apply braceless_no_placeholder; [|done].
      by apply render_braceless. }
    split_and!; [|done|done|by apply getCollectionFQN_verbatim].
    rewrite (getCollectionFQN_fillEach this name segs Hp Hwf Htok).
    by rewrite flatten_fillEach.
Qed.

(** C4 on the worked example, seen as the segments of its pattern. *)
Lemma bucket_templating_idempotent_witness :
  S3DB.getCollectionFQN Sample.s3db (VStr "users") = Ok "app-prod-users" ∧
  S3DB.getCollectionFQN
    (S3DB.update (S3DB.withPattern "app-prod-users") Sample.s3db) (VStr "users")
    = Ok "app-prod-users".
Proof.
  destruct bucket_templating_idempotent as (_ & _ & _ & Hgen).
  destruct (Hgen Sample.s3db (VStr "users") Segments.sample) as (out & Hout & Hr & _ & Hre).
  - reflexivity.
  - reflexivity.
  - intros p. destruct p; vm_compute; lia.
  - intros p. destruct p; reflexivity.
  - assert (out = "app-prod-users") as -> by (rewrite Hr; reflexivity).
    by split.
Defined.

(** X1. A bucket pattern made of brace-free literal text and placeholders,
    each placeholder at most once, with tokens that hold neither an opening
    brace nor a dollar sign, becomes the bucket name in which every
    placeholder is replaced by its token and the literal text is kept. *)
Theorem getCollectionFQN_renders_pattern :
  ∀ (this : S3DB.S3DBConfiguration) (name : JsValue) (segs : list Segments.Segment),
    S3DB.bucketPattern this = Some (Segments.flatten segs) →
    Segments.braceFree segs = true →
    (∀ p, Segments.holes p segs ≤ 1) →
    (∀ p, Segments.plain (Segments.token (Templating.tokensOf this name) p) = true) →
    S3DB.getCollectionFQN this name
      = Ok (Segments.render (Templating.tokensOf this name) segs).
Proof.
  intros this name segs Hp Hwf Hone Htok.
  rewrite (getCollectionFQN_fillEach this name segs Hp Hwf Htok).
  by rewrite flatten_fillEach.
Qed.

(** X1 on the pattern ["{{baseName}}-{{stage}}-{{bucketName}}"]. *)
Lemma getCollectionFQN_renders_pattern_witness :
  S3DB.getCollectionFQN Sample.s3db (VStr "users") = Ok "app-prod-users".
Proof.
  apply (getCollectionFQN_renders_pattern Sample.s3db (VStr "users") Segments.sample).
  - reflexivity.
  - reflexivity.
  - intros p. destruct p; vm_compute; lia.
  - intros p. destruct p; reflexivity.
Defined.

(** X2. On such a pattern with a placeholder written more than once, only
    the first occurrence of each placeholder is replaced by its token; the
    later occurrences stay in the bucket name as they are written. *)
Theorem getCollectionFQN_fills_first_occurrence :
  ∀ (this : S3DB.S3DBConfiguration) (name : JsValue) (segs : list Segments.Segment),
    S3DB.bucketPattern this = Some (Segments.flatten segs) →
    Segments.braceFree segs = true →
    (∀ p, Segments.plain (Segments.token (Templating.tokensOf this name) p) = true) →
    S3DB.getCollectionFQN this name
      = Ok (Segments.flatten (Segments.fillEach (Templating.tokensOf this name) segs)) ∧
    ∀ p before after,
      segs = before ++ Segments.Hole p :: after →
      Segments.holes p before = 1 →
      (∀ q, q ≠ p → Segments.holes q segs = 0) →
      S3DB.getCollectionFQN this name
        = Ok (Segments.flatten
                (Segments.fillFirst p (Segments.token (Templating.tokensOf this name) p) before)
              +:+ Segments.text p +:+ Segments.flatten after).
Proof.
  intros this name segs Hp Hwf Htok.
  pose proof (getCollectionFQN_fillEach this name segs Hp Hwf Htok) as H.
  split; [done|]. intros p before after -> Hbefore Hothers. rewrite H. f_equal.
  assert (∀ q tok, q ≠ p →
            Segments.fillFirst q tok (before ++ Segments.Hole p :: after)
              = before ++ Segments.Hole p :: after) as Hskip.
  { intros q tok Hq. apply fillFirst_id. by apply Hothers. }
  assert (∀ tok, Segments.fillFirst p tok (before ++ Segments.Hole p :: after)
               = Segments.fillFirst p tok before ++ Segments.Hole p :: after) as Hfill.
  { intros tok. clear -Hbefore.
    induction before as [|[l|q] before IH]; cbn [Segments.holes] in Hbefore; [lia| |].
    - cbn [app Segments.fillFirst]. by rewrite IH.
    - cbn [app Segments.fillFirst]. case_decide; [done|]. rewrite IH; [done|lia]. }
  assert (∀ q tok, q ≠ p →
            Segments.fillFirst q tok
              (Segments.fillFirst p (Segments.token (Templating.tokensOf this name) p) before
                 ++ Segments.Hole p :: after)
            = Segments.fillFirst p (Segments.token (Templating.tokensOf this name) p) before
                ++ Segments.Hole p :: after) as Hskip'.
  { intros q tok Hq. apply fillFirst_id.
    rewrite <- Hfill, holes_fillFirst_ne by done. by apply Hothers. }
  unfold Segments.fillEach.
  destruct p; repeat first
    [ rewrite Hfill
    | rewrite Hskip by done
    | rewrite Hskip' by done ];
    by rewrite flatten_app.
Qed.

(** X2 on the pattern ["{{stage}}-{{stage}}"]. *)
Lemma getCollectionFQN_fills_first_occurrence_witness :
  S3DB.getCollectionFQN
    (S3DB.update (S3DB.withPattern "{{stage}}-{{stage}}") Sample.s3db) (VStr "users")
    = Ok "prod-{{stage}}".
Proof.
  pose (this := S3DB.update (S3DB.withPattern "{{stage}}-{{stage}}") Sample.s3db).
  destruct (getCollectionFQN_fills_first_occurrence this (VStr "users")
              [Segments.Hole Segments.Stage; Segments.Lit "-"; Segments.Hole Segments.Stage])
    as (_ & H).
  - reflexivity.
  - reflexivity.
  - intros p. destruct p; reflexivity.
  - apply (H Segments.Stage [Segments.Hole Segments.Stage; Segments.Lit "-"] []).
    + reflexivity.
    + reflexivity.
    + intros q Hq. destruct q; [done|reflexivity..].
Defined.

(** ** The process-wide configuration *)

Lemma getRegion_nonempty (this : S3DB.S3DBConfiguration) : S3DB.getRegion this ≠ "".
Proof.
  unfold S3DB.getRegion. destruct (S3DB.region this) as [r|]; [|done].
  by destruct (String.eqb_spec r "").
Qed.

(** X3. [getRegion] never answers the empty string: it answers the
    configured region when that is a non-empty string and ['us-west-2']
    otherwise, also after an [update] that sets the region to [undefined]
    or to the empty string. *)
Theorem getRegion_never_empty :
  ∀ (this : S3DB.S3DBConfiguration),
    S3DB.getRegion this ≠ "" ∧
    (∀ r, S3DB.region this = Some r → r ≠ "" → S3DB.getRegion this = r) ∧
    (∀ u, S3DB.u_region u = S3DB.Present None ∨ S3DB.u_region u = S3DB.Present (Some "") →
          S3DB.getRegion (S3DB.update u this) = "us-west-2").
Proof.
  intros this. split_and!.
  - apply getRegion_nonempty.
  - intros r Hr Hne. unfold S3DB.getRegion. rewrite Hr.
    by destruct (String.eqb_spec r "").
  - intros u Hu. apply getRegion_default. cbn. by destruct Hu as [-> | ->]; [left|right].
Qed.

(** X3 on the example configuration, whose region is unset, and on a set
    region. *)
Lemma getRegion_never_empty_witness :
  S3DB.getRegion
    (S3DB.update (Updates.tokensUpdate "app" "prod" "eu-west-1") Sample.s3db) = "eu-west-1" ∧
  S3DB.getRegion
    (S3DB.update
       {| S3DB.u_baseName := S3DB.Absent; S3DB.u_stage := S3DB.Absent;
          S3DB.u_bucketPattern := S3DB.Absent; S3DB.u_region := S3DB.Present None |}
       (S3DB.update (Updates.tokensUpdate "app" "prod" "eu-west-1") Sample.s3db))
    = "us-west-2".
Proof.
  split.
  - destruct (getRegion_never_empty
                (S3DB.update (Updates.tokensUpdate "app" "prod" "eu-west-1") Sample.s3db))
      as (_ & H & _).
    apply H; [reflexivity|discriminate].
  - destruct (getRegion_never_empty
                (S3DB.update (Updates.tokensUpdate "app" "prod" "eu-west-1") Sample.s3db))
      as (_ & _ & H).
    apply H. by left.
Defined.

Lemma update_update (this : S3DB.S3DBConfiguration) (first second : S3DB.Update) :
  S3DB.update second (S3DB.update first this)
    = S3DB.update (Updates.spreadUpdate first second) this.
Proof.
  destruct this as [b s p r], first as [b1 s1 p1 r1], second as [b2 s2 p2 r2].
  unfold S3DB.update. cbn.
  f_equal; by match goal with |- context [Updates.spreadFields _ ?f] => destruct f end.
Qed.

Lemma update_noUpdate (this : S3DB.S3DBConfiguration) :
  S3DB.update Updates.noUpdate this = this.
Proof. by destruct this. Qed.

(** X4. Two updates in a row are one update with the spread of their
    arguments, the later argument winning; an update with the empty object
    changes nothing; repeating an update changes nothing more. *)
Theorem update_composes :
  ∀ (this : S3DB.S3DBConfiguration) (first second : S3DB.Update),
    S3DB.update second (S3DB.update first this)
      = S3DB.update (Updates.spreadUpdate first second) this ∧
    S3DB.update Updates.noUpdate this = this ∧
    S3DB.update first (S3DB.update first this) = S3DB.update first this.
Proof.
  intros this first second. split_and!.
  - apply update_update.
  - apply update_noUpdate.
  - destruct this as [b s p r], first as [b1 s1 p1 r1]. unfold S3DB.update. cbn.
    f_equal; by match goal with |- context [S3DB.spreadField _ ?f] => destruct f end.
Qed.

(** X6. [getCollectionFQN] throws exactly when the bucket pattern is
    [undefined], and then a [TypeError]. After an update that sets the
    pattern to [undefined] no collection of either revision can be
    constructed any more, whatever its type. *)
Theorem undefined_pattern_blocks_construction :
  ∀ (this : S3DB.S3DBConfiguration) (name : JsValue),
    (S3DB.getCollectionFQN this name = Throw TypeError ↔ S3DB.bucketPattern this = None) ∧
    (∀ e, S3DB.getCollectionFQN this name = Throw e → e = TypeError) ∧
    (∀ u resolve defaults getMetadata type idPrefix,
       S3DB.u_bucketPattern u = S3DB.Present None →
       (∀ c, Collection.new resolve defaults (S3DB.update u this) type idPrefix ≠ Ok c) ∧
       DecoratedCollection.new getMetadata (S3DB.update u this) type idPrefix
         = Throw TypeError).
Proof.
  intros this name. split_and!.
  - unfold S3DB.getCollectionFQN. by destruct (S3DB.bucketPattern this).
  - intros e. unfold S3DB.getCollectionFQN.
    destruct (S3DB.bucketPattern this); [done|]. by intros [= <-].
  - intros u resolve defaults getMetadata type idPrefix Hu. split.
    + intros c Hc.
      apply new_Ok_inv in Hc as (n & fqn & _ & _ & _ & Hfqn & _).
      unfold S3DB.getCollectionFQN in Hfqn. cbn in Hfqn. by rewrite Hu in Hfqn.
    + unfold DecoratedCollection.new. destruct (getMetadata type); [|done].
      unfold S3DB.getCollectionFQN. cbn. by rewrite Hu.
Qed.

(** X6 on the example: after [S3DB.update({ bucketPattern: undefined })]
    the [Users] collection cannot be built. *)
Lemma undefined_pattern_blocks_construction_witness :
  Collection.new Sample.resolve Sample.defaults
    (S3DB.update
       {| S3DB.u_baseName := S3DB.Absent; S3DB.u_stage := S3DB.Absent;
          S3DB.u_bucketPattern := S3DB.Present None; S3DB.u_region := S3DB.Absent |}
       Sample.s3db)
    (VStr "Users") None
  = Throw TypeError.
Proof.
  destruct (undefined_pattern_blocks_construction Sample.s3db (VStr "users")) as (_ & _ & H).
  destruct (H {| S3DB.u_baseName := S3DB.Absent; S3DB.u_stage := S3DB.Absent;
                 S3DB.u_bucketPattern := S3DB.Present None; S3DB.u_region := S3DB.Absent |}
              Sample.resolve Sample.defaults Probe.getMetadata (VStr "Users") None eq_refl)
    as (Hnew & _).
  destruct (Collection.new _ _ _ _ _) as [c|e] eqn:E.
  - by destruct (Hnew c).
  - vm_compute in E. by injection E as <-.
Defined.

(** ** The constructor *)

Section ConstructorFacts.
Import Collection.

Variable resolve : string → option JsObject.
Variable defaults : JsObject.

(** The collection that a successful call builds. *)
Lemma new_Ok_intro (s3db : S3DB.S3DBConfiguration) (type : JsValue)
    (idPrefix : option string) (name fqn : string) :
  typeName type = Ok name → name ≠ "" →
  truthy (prop (mergedConfiguration resolve defaults type name) "name") = true →
  S3DB.getCollectionFQN s3db (prop (mergedConfiguration resolve defaults type name) "name")
    = Ok fqn →
  ∃ c, new resolve defaults s3db type idPrefix = Ok c ∧
       Collection.idPrefix c = idPrefix ∧
       configuration c = mergedConfiguration resolve defaults type name ∧
       CollectionBehavior.fullBucketName (headBehavior c) = fqn.
Proof.
  intros Hn Hne Ht Hf. unfold new. rewrite Hn. cbn.
  destruct (String.eqb_spec name ""); [done|]. rewrite Ht. cbn. rewrite Hf. cbn.
  by eexists.
Qed.

(** What the constructor throws does not depend on the id prefix. *)
Lemma new_Throw_prefix (s3db : S3DB.S3DBConfiguration) (type : JsValue)
    (p1 p2 : option string) (e : JsError) :
  new resolve defaults s3db type p1 = Throw e →
  new resolve defaults s3db type p2 = Throw e.
Proof.
  unfold new. destruct (typeName type) as [name|]; cbn; [|done].
  destruct (String.eqb name ""); [done|].
  destruct (truthy _); cbn; [|done].
  by destruct (S3DB.getCollectionFQN _ _).
Qed.

(** Two types with the same name are constructed alike: the same error,
    or collections that differ in the type binding only. *)
Lemma new_same_name (s3db : S3DB.S3DBConfiguration) (type1 type2 : JsValue)
    (name : string) (idPrefix : option string) :
  typeName type1 = Ok name → typeName type2 = Ok name →
  (∀ e, new resolve defaults s3db type1 idPrefix = Throw e →
        new resolve defaults s3db type2 idPrefix = Throw e) ∧
  (∀ c1, new resolve defaults s3db type1 idPrefix = Ok c1 →
     ∃ c2, new resolve defaults s3db type2 idPrefix = Ok c2 ∧
           CollectionBehavior.fullBucketName (headBehavior c2)
             = CollectionBehavior.fullBucketName (headBehavior c1) ∧
           (∀ k, k ≠ "type" → configuration c2 !! k = configuration c1 !! k) ∧
           configuration c2 !! "type" = Some type2).
Proof.
  intros Hn1 Hn2.
  assert (∀ k, k ≠ "type" →
            mergedConfiguration resolve defaults type2 name !! k
              = mergedConfiguration resolve defaults type1 name !! k) as Hsame.
  { intros k Hk. by rewrite !lookup_mergedConfiguration, !decide_False. }
  assert (prop (mergedConfiguration resolve defaults type2 name) "name"
          = prop (mergedConfiguration resolve defaults type1 name) "name") as Hname.
  { unfold prop. by rewrite Hsame. }
  split.
  - intros e. unfold new. rewrite Hn1, Hn2. cbn [mbind Result_bind].
    destruct (String.eqb name ""); [intros H; exact H|]. rewrite Hname.
    destruct (truthy _); cbn [negb]; [|intros H; exact H].
    destruct (S3DB.getCollectionFQN _ _); cbn [mbind Result_bind];
      intros H; [discriminate H|exact H].
  - intros c1 (n & fqn & Hn & Hne & Ht & Hf & Hcfg & _ & Hb)%new_Ok_inv.
    rewrite Hn1 in Hn. injection Hn as <-.
    destruct (new_Ok_intro s3db type2 idPrefix name fqn Hn2 Hne)
      as (c2 & Hc2 & _ & Hcfg2 & Hb2); [by rewrite Hname..|].
    exists c2. split_and!; [done| | |].
    + rewrite Hb2, (Hb (headBehavior c1)); [done|]. apply list_elem_of_here.
    + intros k Hk. rewrite Hcfg, Hcfg2. by apply Hsame.
    + by rewrite Hcfg2, lookup_mergedConfiguration, decide_True.
Qed.

Lemma toLowerCase_empty (s : string) : JsString.toLowerCase s = "" → s = "".
Proof. by destruct s. Qed.

End ConstructorFacts.

(** X7. The constructor succeeds exactly when the type has a non-empty
    name, the merged configuration has a usable [name] and a bucket pattern
    is set: the id prefix, the stage, the region and the base name play no
    part in it. What it throws otherwise does not depend on the id prefix
    either. *)
Theorem new_succeeds_iff :
  ∀ resolve defaults (s3db : S3DB.S3DBConfiguration) (type : JsValue)
    (idPrefix : option string),
    ((∃ c, Collection.new resolve defaults s3db type idPrefix = Ok c) ↔
     ∃ name,
       Collection.typeName type = Ok name ∧ name ≠ "" ∧
       truthy (prop (Collection.mergedConfiguration resolve defaults type name) "name")
         = true ∧
       is_Some (S3DB.bucketPattern s3db)) ∧
    (∀ e other,
       Collection.new resolve defaults s3db type idPrefix = Throw e →
       Collection.new resolve defaults s3db type other = Throw e).
Proof.
  intros resolve defaults s3db type idPrefix. split.
  - split.
    + intros [c Hc]. apply new_Ok_inv in Hc as (name & fqn & Hn & Hne & Ht & Hf & _).
      exists name. split_and!; try done.
      unfold S3DB.getCollectionFQN in Hf. by destruct (S3DB.bucketPattern s3db).
    + intros (name & Hn & Hne & Ht & [pattern Hp]).
      destruct (new_Ok_intro resolve defaults s3db type idPrefix name _ Hn Hne Ht
                  (getCollectionFQN_unfold _ _ _ Hp)) as (c & Hc & _).
      by exists c.
  - intros e other. apply new_Throw_prefix.
Qed.

(** X7 on the example, where construction succeeds under any prefix. *)
Lemma new_succeeds_iff_witness :
  ∃ c, Collection.new Sample.resolve Sample.defaults Sample.s3db (VStr "Users")
         (Some "/tenant/") = Ok c.
Proof.
  destruct (new_succeeds_iff Sample.resolve Sample.defaults Sample.s3db (VStr "Users")
              (Some "/tenant/")) as ((_ & H) & _).
  apply H. exists "Users". split_and!.
  - reflexivity.
  - discriminate.
  - vm_compute. reflexivity.
  - by eexists.
Defined.

(** X8. A type that is [undefined] or [null] makes the constructor throw a
    [TypeError]; an empty type name, given as a string or as the name of
    an object, makes it throw ['No type was provided.']. Both happen before
    the registry is consulted. A number, a boolean and an object without a
    name each have the name ["undefined"] and are constructed as the
    string ["undefined"] is: the same error, or a collection with the same
    bucket name and the same configuration apart from the type binding,
    which is the value that was passed. *)
Theorem new_type_edge_cases :
  ∀ resolve defaults (s3db : S3DB.S3DBConfiguration) (idPrefix : option string),
    Collection.new resolve defaults s3db VUndefined idPrefix = Throw TypeError ∧
    Collection.new resolve defaults s3db VNull idPrefix = Throw TypeError ∧
    Collection.new resolve defaults s3db (VStr "") idPrefix
      = Throw (Error "No type was provided.") ∧
    Collection.new resolve defaults s3db (VObj (Some "")) idPrefix
      = Throw (Error "No type was provided.") ∧
    (∀ type,
       (type = VObj None ∨ (∃ n, type = VNum n) ∨ (∃ b, type = VBool b)) →
       (∀ e, Collection.new resolve defaults s3db (VStr "undefined") idPrefix = Throw e →
             Collection.new resolve defaults s3db type idPrefix = Throw e) ∧
       (∀ c0, Collection.new resolve defaults s3db (VStr "undefined") idPrefix = Ok c0 →
          ∃ c, Collection.new resolve defaults s3db type idPrefix = Ok c ∧
               CollectionBehavior.fullBucketName (Collection.headBehavior c)
                 = CollectionBehavior.fullBucketName (Collection.headBehavior c0) ∧
               (∀ k, k ≠ "type" →
                     Collection.configuration c !! k = Collection.configuration c0 !! k) ∧
               Collection.configuration c !! "type" = Some type) ∧
       (∀ c, Collection.new resolve defaults s3db type idPrefix = Ok c →
          ∀ k, k ≠ "type" →
            Collection.configuration c !! k =
              match resolve "undefined" with
              | Some entry =>
                  match entry !! k with Some v => Some v | None => defaults !! k end
              | None => defaults !! k
              end)).
Proof.
  intros resolve defaults s3db idPrefix. split_and!; try reflexivity.
  intros type Htype.
  assert (Collection.typeName type = Ok "undefined") as Hname.
  { by destruct Htype as [->|[[n ->]|[b ->]]]. }
  destruct (new_same_name resolve defaults s3db (VStr "undefined") type "undefined"
              idPrefix eq_refl Hname) as (Hthrow & Hok).
  split_and!; [done|done|].
  intros c Hc k Hk.
  apply new_Ok_inv in Hc as (name & fqn & Hn & _ & _ & _ & -> & _).
  rewrite lookup_mergedConfiguration, decide_False by done.
  rewrite Hname in Hn. by injection Hn as <-.
Qed.

(** X8 with a registry that knows the name ["undefined"]: a number, a
    boolean and an object without a name are all given its entry. *)
Lemma new_type_edge_cases_witness :
  (∃ c, Collection.new Probe.resolveUndefined Sample.defaults Sample.s3db (VNum 7) None
          = Ok c ∧
        Collection.configuration c !! "name" = Some (VStr "users")) ∧
  (∃ c, Collection.new Probe.resolveUndefined Sample.defaults Sample.s3db (VBool true) None
          = Ok c ∧
        Collection.configuration c !! "name" = Some (VStr "users")) ∧
  (∃ c, Collection.new Probe.resolveUndefined Sample.defaults Sample.s3db (VObj None) None
          = Ok c ∧
        Collection.configuration c !! "name" = Some (VStr "users")).
Proof.
  destruct (new_type_edge_cases Probe.resolveUndefined Sample.defaults Sample.s3db None)
    as (_ & _ & _ & _ & H).
  destruct (Collection.new Probe.resolveUndefined Sample.defaults Sample.s3db
              (VStr "undefined") None) as [c0|e] eqn:E0.
  2:{ vm_compute in E0. discriminate E0. }
  assert (Collection.configuration c0 !! "name" = Some (VStr "users")) as Hc0.
  { vm_compute in E0. injection E0 as <-. vm_compute. reflexivity. }
  split_and!.
  - destruct (H (VNum 7)) as (_ & Hok & _); [right; left; by exists 7%Z|].
    destruct (Hok c0 eq_refl) as (c & Hc & _ & Hk & _). exists c. split; [exact Hc|].
    rewrite Hk; [exact Hc0|discriminate].
  - destruct (H (VBool true)) as (_ & Hok & _); [right; right; by exists true|].
    destruct (Hok c0 eq_refl) as (c & Hc & _ & Hk & _). exists c. split; [exact Hc|].
    rewrite Hk; [exact Hc0|discriminate].
  - destruct (H (VObj None)) as (_ & Hok & _); [by left|].
    destruct (Hok c0 eq_refl) as (c & Hc & _ & Hk & _). exists c. split; [exact Hc|].
    rewrite Hk; [exact Hc0|discriminate].
Defined.

(** X9. Types whose names have the same [toLowerCase] form are resolved to
    the same registry entry: if one can be constructed so can the other,
    with the same bucket name and the same configuration apart from the
    [type] binding, which is each caller's own. *)
Theorem new_ignores_letter_case :
  ∀ resolve defaults (s3db : S3DB.S3DBConfiguration) (type1 type2 : JsValue)
    (name1 name2 : string) (idPrefix : option string) (c1 : Collection.Collection),
    Collection.typeName type1 = Ok name1 →
    Collection.typeName type2 = Ok name2 →
    JsString.toLowerCase name1 = JsString.toLowerCase name2 →
    Collection.new resolve defaults s3db type1 idPrefix = Ok c1 →
    ∃ c2,
      Collection.new resolve defaults s3db type2 idPrefix = Ok c2 ∧
      CollectionBehavior.fullBucketName (Collection.headBehavior c2)
        = CollectionBehavior.fullBucketName (Collection.headBehavior c1) ∧
      (∀ k, k ≠ "type" →
            Collection.configuration c2 !! k = Collection.configuration c1 !! k) ∧
      Collection.configuration c1 !! "type" = Some type1 ∧
      Collection.configuration c2 !! "type" = Some type2.
Proof.
  intros resolve defaults s3db type1 type2 name1 name2 idPrefix c1 Hn1 Hn2 Hlow Hc1.
  pose proof Hc1 as (n & fqn & Hn & Hne & Ht & Hf & Hcfg & _ & Hb)%new_Ok_inv.
  rewrite Hn1 in Hn. injection Hn as <-.
  assert (∀ k, k ≠ "type" →
            Collection.mergedConfiguration resolve defaults type2 name2 !! k
              = Collection.mergedConfiguration resolve defaults type1 name1 !! k) as Hsame.
  { intros k Hk. rewrite !lookup_mergedConfiguration, !decide_False by done.
    by rewrite Hlow. }
  assert (prop (Collection.mergedConfiguration resolve defaults type2 name2) "name"
          = prop (Collection.mergedConfiguration resolve defaults type1 name1) "name") as Hname.
  { unfold prop. by rewrite Hsame. }
  assert (name2 ≠ "") as Hne2.
  { intros ->. apply Hne. apply toLowerCase_empty. by rewrite Hlow. }
  destruct (new_Ok_intro resolve defaults s3db type2 idPrefix name2 fqn Hn2 Hne2)
    as (c2 & Hc2 & _ & Hcfg2 & Hb2); [by rewrite Hname..|].
  exists c2. split_and!.
  - done.
  - rewrite Hb2, (Hb (Collection.headBehavior c1)); [done|].
    unfold Collection.behaviors. apply list_elem_of_here.
  - intros k Hk. rewrite Hcfg, Hcfg2. by apply Hsame.
  - by rewrite Hcfg, lookup_mergedConfiguration, decide_True.
  - by rewrite Hcfg2, lookup_mergedConfiguration, decide_True.
Qed.

(** X9 for the string ["USERS"] and a class named [Users], and for two
    names that differ in the case of a Latin-1 letter. *)
Lemma new_ignores_letter_case_witness :
  (∃ c2,
     Collection.new Sample.resolve Sample.defaults Sample.s3db (VObj (Some "Users")) None
       = Ok c2 ∧
     CollectionBehavior.fullBucketName (Collection.headBehavior c2) = "app-prod-users") ∧
  JsString.toLowerCase Probe.capitalU = Probe.smallU ∧
  (∃ c2,
     Collection.new Probe.resolveLatin Sample.defaults Sample.s3db (VStr Probe.smallU) None
       = Ok c2 ∧
     CollectionBehavior.fullBucketName (Collection.headBehavior c2) = "app-prod-users").
Proof.
  split_and!.
  - destruct (Collection.new Sample.resolve Sample.defaults Sample.s3db (VStr "USERS") None)
      as [c1|e] eqn:E.
    + destruct (new_ignores_letter_case Sample.resolve Sample.defaults Sample.s3db
                  (VStr "USERS") (VObj (Some "Users")) "USERS" "Users" None c1
                  eq_refl eq_refl eq_refl E) as (c2 & Hc2 & Hb & _).
      exists c2. split; [exact Hc2|]. rewrite Hb.
      vm_compute in E. injection E as <-. reflexivity.
    + vm_compute in E. discriminate E.
  - reflexivity.
  - destruct (Collection.new Probe.resolveLatin Sample.defaults Sample.s3db
                (VStr Probe.capitalU) None) as [c1|e] eqn:E.
    + destruct (new_ignores_letter_case Probe.resolveLatin Sample.defaults Sample.s3db
                  (VStr Probe.capitalU) (VStr Probe.smallU) Probe.capitalU Probe.smallU
                  None c1 eq_refl eq_refl eq_refl E) as (c2 & Hc2 & Hb & _).
      exists c2. split; [exact Hc2|]. rewrite Hb.
      vm_compute in E. injection E as <-. reflexivity.
    + vm_compute in E. discriminate E.
Defined.

(** ** Sub-collections and nesting *)

(** X10. A sub-collection takes nothing from its parent but the id prefix:
    its configuration and bucket name are those of a collection of the new
    type constructed at that moment, and when that construction throws,
    [subCollection] throws the same. So a sub-collection made after an
    [S3DB.update] may address another bucket than its parent. *)
Theorem subCollection_resolves_afresh :
  ∀ resolve defaults (s3db : S3DB.S3DBConfiguration) (this : Collection.Collection)
    (prefix : string) (newType : JsValue),
    (∀ child,
       Collection.subCollection resolve defaults s3db this prefix newType = Ok child →
       ∃ direct,
         Collection.new resolve defaults s3db newType None = Ok direct ∧
         Collection.configuration child = Collection.configuration direct ∧
         ∀ b, b ∈ Collection.behaviors child →
           CollectionBehavior.fullBucketName b
             = CollectionBehavior.fullBucketName (Collection.headBehavior direct)) ∧
    (∀ e,
       Collection.subCollection resolve defaults s3db this prefix newType = Throw e →
       Collection.new resolve defaults s3db newType None = Throw e) ∧
    (∀ other,
       Collection.idPrefix other = Collection.idPrefix this →
       Collection.subCollection resolve defaults s3db other prefix newType
         = Collection.subCollection resolve defaults s3db this prefix newType).
Proof.
  intros resolve defaults s3db this prefix newType. split_and!.
  - intros child Hc. unfold Collection.subCollection in Hc.
    apply new_Ok_inv in Hc as (name & fqn & Hn & Hne & Ht & Hf & Hcfg & _ & Hb).
    destruct (new_Ok_intro resolve defaults s3db newType None name fqn Hn Hne Ht Hf)
      as (direct & Hd & _ & Hdcfg & Hdb).
    exists direct. split_and!; [done|congruence|].
    intros b Hin. by rewrite (Hb b Hin), Hdb.
  - intros e. apply new_Throw_prefix.
  - intros other Hp. unfold Collection.subCollection. by rewrite Hp.
Qed.

(** X10 on the example: the parent is built while the stage is ["prod"],
    its sub-collection after [S3DB.update({ stage: 'dev' })]. *)
Lemma subCollection_resolves_afresh_witness :
  ∃ child,
    Collection.subCollection Sample.resolve Sample.defaults
      (S3DB.update Sample.stageDev Sample.s3db) (Sample.users (Some "")) "a/" (VStr "Users")
      = Ok child ∧
    CollectionBehavior.fullBucketName (Collection.headBehavior child) = "app-dev-users" ∧
    CollectionBehavior.fullBucketName (Collection.headBehavior (Sample.users (Some "")))
      = "app-prod-users".
Proof.
  destruct (Collection.subCollection Sample.resolve Sample.defaults
              (S3DB.update Sample.stageDev Sample.s3db) (Sample.users (Some "")) "a/"
              (VStr "Users")) as [child|e] eqn:E.
  - exists child. split; [reflexivity|]. split; [|reflexivity].
    destruct (subCollection_resolves_afresh Sample.resolve Sample.defaults
                (S3DB.update Sample.stageDev Sample.s3db) (Sample.users (Some "")) "a/"
                (VStr "Users")) as (H & _).
    destruct (H child E) as (direct & Hd & _ & Hb).
    rewrite (Hb (Collection.headBehavior child)) by apply list_elem_of_here.
    vm_compute in Hd. injection Hd as <-. reflexivity.
  - vm_compute in E. discriminate E.
Defined.

(** X11. Nesting sub-collections along a non-empty list of prefixes is one
    construction: it gives what the constructor gives for the new type and
    the interpolated prefix of the outermost collection followed by all the
    prefixes, be it a collection or an error; so it gives what a single
    [subCollection] call with the concatenated prefixes gives. *)
Theorem nest_is_one_construction :
  ∀ resolve defaults (s3db : S3DB.S3DBConfiguration) (prefixes : list string)
    (this : Collection.Collection) (newType : JsValue),
    prefixes ≠ [] →
    Collection.nest resolve defaults s3db this prefixes newType
      = Collection.new resolve defaults s3db newType
          (Some (template (Collection.idPrefix this) +:+ foldr String.app "" prefixes)) ∧
    Collection.nest resolve defaults s3db this prefixes newType
      = Collection.subCollection resolve defaults s3db this
          (foldr String.app "" prefixes) newType.
Proof.
  intros resolve defaults s3db prefixes this newType Hne.
  assert (Collection.nest resolve defaults s3db this prefixes newType
          = Collection.new resolve defaults s3db newType
              (Some (template (Collection.idPrefix this) +:+ foldr String.app "" prefixes)))
    as H; [|by split].
  revert this. induction prefixes as [|p ps IH]; intros this; [done|].
  cbn [Collection.nest foldr]. unfold Collection.subCollection at 1.
  destruct ps as [|p' ps].
  - cbn [Collection.nest foldr]. rewrite append_nil_r.
    by destruct (Collection.new _ _ _ _ _).
  - destruct (Collection.new resolve defaults s3db newType
                (Some (template (Collection.idPrefix this) +:+ p))) as [child|e] eqn:Hc;
      cbn [mbind Result_bind].
    + rewrite IH by done.
      apply new_idPrefix in Hc as [-> _]. cbn [template]. by rewrite append_assoc.
    + symmetry. by eapply new_Throw_prefix.
Qed.

(** X11 on the example, three levels deep below a collection with the
    prefix ["t/"]. *)
Lemma nest_is_one_construction_witness :
  Collection.nest Sample.resolve Sample.defaults Sample.s3db
    (Sample.users (Some "t/")) ["a/"; "b/"; "c/"] (VStr "Users")
    = Ok (Sample.users (Some "t/a/b/c/")).
Proof.
  destruct (nest_is_one_construction Sample.resolve Sample.defaults Sample.s3db
              ["a/"; "b/"; "c/"] (Sample.users (Some "t/")) (VStr "Users")) as (H & _).
  - discriminate.
  - rewrite H. apply new_users.
Defined.

(** ** Head *)

(** X12. Whatever [head] throws has gone through the client's error
    handler with the bucket name and the caller's id: the rejection of the
    backend call, and equally an error raised while building the metadata
    from a successful response. No other error leaves [head]. *)
Theorem head_throws_only_handled_errors :
  ∀ (HeadObjectOutput S3Metadata : Type)
    (headObject : HeadBehavior.HeadObjectRequest → Result HeadObjectOutput)
    (buildS3Metadata : HeadObjectOutput → Result S3Metadata)
    (handleError : JsError → string → string → JsError)
    (this : CollectionBehavior.Behavior) (id : string),
    (∀ e,
       HeadBehavior.head headObject buildS3Metadata handleError this id = Throw e →
       ∃ cause,
         e = handleError cause (CollectionBehavior.fullBucketName this) id ∧
         (headObject (HeadBehavior.parameters this id) = Throw cause ∨
          ∃ response,
            headObject (HeadBehavior.parameters this id) = Ok response ∧
            buildS3Metadata response = Throw cause)) ∧
    (∀ response cause,
       headObject (HeadBehavior.parameters this id) = Ok response →
       buildS3Metadata response = Throw cause →
       HeadBehavior.head headObject buildS3Metadata handleError this id
         = Throw (handleError cause (CollectionBehavior.fullBucketName this) id)).
Proof.
  intros O M headObject buildS3Metadata handleError this id. split.
  - intros e. unfold HeadBehavior.head.
    destruct (headObject _) as [response|cause] eqn:Hh; cbn [mbind Result_bind].
    + destruct (buildS3Metadata response) as [m|cause] eqn:Hb; [done|].
      intros [= <-]. exists cause. split; [done|]. right. by exists response.
    + intros [= <-]. exists cause. split; [done|]. by left.
  - intros response cause Hh Hb. unfold HeadBehavior.head.
    rewrite Hh. cbn [mbind Result_bind]. by rewrite Hb.
Qed.

(** X12 with a backend that answers and a response that cannot be read. *)
Lemma head_throws_only_handled_errors_witness :
  HeadBehavior.head Probe.found Probe.brokenMetadata Probe.handleError
    (Sample.usersBehavior (Some "a/")) "1234"
    = Throw (Error "unreadable response in app-prod-users at 1234").
Proof.
  destruct (head_throws_only_handled_errors unit unit Probe.found Probe.brokenMetadata
              Probe.handleError (Sample.usersBehavior (Some "a/")) "1234") as (_ & H).
  apply (H () (Error "unreadable response")); reflexivity.
Defined.

(** ** The earlier revision of the constructor *)

(** X13. The earlier constructor throws a [TypeError] for a type without
    decorator metadata. With metadata and a bucket pattern it always
    succeeds: the collection keeps the type and the prefix, and each of its
    six behaviours is bound to the metadata, the prefix and the bucket name
    templated from the metadata's [name]. It does not check that name:
    metadata without a [name] gives the bucket name of a collection called
    ["undefined"]. *)
Theorem decorated_new_outcome :
  ∀ (getMetadata : JsValue → option JsObject) (s3db : S3DB.S3DBConfiguration)
    (type : JsValue) (idPrefix : option string),
    (getMetadata type = None →
     DecoratedCollection.new getMetadata s3db type idPrefix = Throw TypeError) ∧
    (∀ metadata pattern,
       getMetadata type = Some metadata →
       S3DB.bucketPattern s3db = Some pattern →
       ∃ fqn,
         S3DB.getCollectionFQN s3db (prop metadata "name") = Ok fqn ∧
         (metadata !! "name" = None →
          S3DB.getCollectionFQN s3db (VStr "undefined") = Ok fqn) ∧
         DecoratedCollection.new getMetadata s3db type idPrefix =
           let behavior :=
             {| CollectionBehavior.configuration := metadata;
                CollectionBehavior.fullBucketName := fqn;
                CollectionBehavior.idPrefix := idPrefix |} in
           Ok {| DecoratedCollection.type := type;
                 DecoratedCollection.idPrefix := idPrefix;
                 DecoratedCollection.headBehavior := behavior;
                 DecoratedCollection.existsBehavior := behavior;
                 DecoratedCollection.loadBehavior := behavior;
                 DecoratedCollection.saveBheavior := behavior;
                 DecoratedCollection.deleteBehavior := behavior;
                 DecoratedCollection.findBehavior := behavior |}).
Proof.
  intros getMetadata s3db type idPrefix. split.
  - intros Hm. unfold DecoratedCollection.new. by rewrite Hm.
  - intros metadata pattern Hm Hp. unfold DecoratedCollection.new. rewrite Hm.
    rewrite (getCollectionFQN_unfold _ _ _ Hp). cbn [mbind Result_bind].
    eexists. split_and!; [reflexivity| |reflexivity].
    intros Hname. rewrite (getCollectionFQN_unfold _ _ _ Hp). cbn.
    unfold prop. by rewrite Hname.
Qed.

(** X13 on metadata that has only a page size. *)
Lemma decorated_new_outcome_witness :
  ∃ c,
    DecoratedCollection.new Probe.getMetadata Sample.s3db (VObj (Some "Users")) None = Ok c ∧
    CollectionBehavior.fullBucketName (DecoratedCollection.findBehavior c)
      = "app-prod-undefined".
Proof.
  destruct (decorated_new_outcome Probe.getMetadata Sample.s3db (VObj (Some "Users")) None)
    as (_ & H).
  destruct (H {[ "pageSize" := VNum 10 ]} "{{baseName}}-{{stage}}-{{bucketName}}"
              eq_refl eq_refl) as (fqn & _ & Hname & Hc).
  assert (({[ "pageSize" := VNum 10 ]} : JsObject) !! "name" = None) as Hnone
    by (vm_compute; reflexivity).
  specialize (Hname Hnone).
  assert (S3DB.getCollectionFQN Sample.s3db (VStr "undefined") = Ok "app-prod-undefined")
    as Hf by reflexivity.
  rewrite Hf in Hname. injection Hname as <-.
  eexists. split; [exact Hc|reflexivity].
Defined.

(** ** Every collection of a process *)

Section ProcessFacts.
Import Collection Process.

Variable resolve : string → option JsObject.
Variable defaults : JsObject.

Lemma run_snoc (w : World) (calls : list Call) (call : Call) :
  run resolve defaults w (calls ++ [call])
    = exec resolve defaults (run resolve defaults w calls) call.
Proof. unfold run. by rewrite foldl_app. Qed.

(** An object of the world after [call] was there before or is what
    [call] constructs. *)
Lemma exec_objects (w : World) (call : Call) (c : Collection) :
  c ∈ objects (exec resolve defaults w call) →
  c ∈ objects w ∨ constructs resolve defaults w call c.
Proof.
  destruct call as [type idPrefix|parent prefix newType|configuration]; cbn.
  - destruct (new _ _ _ _ _) as [c'|e] eqn:Hc; cbn; [|by left].
    intros [Hin| ->%list_elem_of_singleton]%elem_of_app; [by left|by right].
  - destruct (objects w !! parent) as [this|] eqn:Hthis; [|by left].
    destruct (subCollection _ _ _ _ _ _) as [c'|e] eqn:Hc; cbn; [|by left].
    intros [Hin| ->%list_elem_of_singleton]%elem_of_app; [by left|].
    right. by exists this.
  - by left.
Qed.

(** Every object of a run was constructed by one of its calls, in the
    world that the calls before it had made. *)
Lemma run_objects_constructed (s3db0 : S3DB.S3DBConfiguration) (calls : list Call)
    (c : Collection) :
  c ∈ objects (run resolve defaults (start s3db0) calls) →
  ∃ before call after,
    calls = before ++ call :: after ∧
    constructs resolve defaults (run resolve defaults (start s3db0) before) call c.
Proof.
  induction calls as [|call calls IH] using rev_ind.
  - cbn. by intros ?%elem_of_nil.
  - rewrite run_snoc. intros [Hin|Hnew]%exec_objects.
    + destruct (IH Hin) as (before & call' & after & -> & Hc).
      exists before, call', (after ++ [call]). split; [|done].
      by rewrite <- (assoc_L (++)).
    + by exists calls, call, [].
Qed.

(** What a constructing call has built. *)
Lemma constructs_inv (w : World) (call : Call) (c : Collection) :
  constructs resolve defaults w call c →
  ∃ type idPrefix,
    typeOfCall call = Some type ∧
    new resolve defaults (Collection.s3db w) type idPrefix = Ok c.
Proof.
  destruct call as [type idPrefix|parent prefix newType|configuration]; cbn.
  - intros Hc. by exists type, idPrefix.
  - intros (this & _ & Hc). unfold subCollection in Hc. by eexists _, _.
  - done.
Qed.

End ProcessFacts.

(** X14. In a process that starts without collections, whatever sequence
    of constructions, sub-collection calls and configuration updates it
    runs, every collection it holds was constructed by one of these calls:
    its type binding is the type given to that call, its configuration has
    a usable name, and each of its six behaviours is bound to the
    collection's own configuration and id prefix and to the bucket name
    templated from the process-wide configuration as the calls before that
    one had left it. *)
Theorem reachable_collections_consistent :
  ∀ resolve defaults (s3db : S3DB.S3DBConfiguration) (calls : list Collection.Call)
    (c : Collection.Collection),
    c ∈ Collection.objects (Collection.run resolve defaults (Process.start s3db) calls) →
    ∃ before call after type,
      calls = before ++ call :: after ∧
      Process.constructs resolve defaults
        (Collection.run resolve defaults (Process.start s3db) before) call c ∧
      Process.typeOfCall call = Some type ∧
      Collection.configuration c !! "type" = Some type ∧
      truthy (prop (Collection.configuration c) "name") = true ∧
      ∀ b, b ∈ Collection.behaviors c →
        CollectionBehavior.configuration b = Collection.configuration c ∧
        CollectionBehavior.idPrefix b = Collection.idPrefix c ∧
        S3DB.getCollectionFQN
          (Collection.s3db (Collection.run resolve defaults (Process.start s3db) before))
          (prop (Collection.configuration c) "name")
          = Ok (CollectionBehavior.fullBucketName b).
Proof.
  intros resolve defaults s3db calls c Hin.
  destruct (run_objects_constructed resolve defaults s3db calls c Hin)
    as (before & call & after & Hcalls & Hc).
  destruct (constructs_inv resolve defaults _ _ _ Hc) as (type & idPrefix & Htype & Hnew).
  apply new_Ok_inv in Hnew as (name & fqn & _ & _ & Ht & Hf & Hcfg & Hp & Hb).
  exists before, call, after, type. split_and!; try done.
  - by rewrite Hcfg, lookup_mergedConfiguration, decide_True.
  - by rewrite Hcfg.
  - intros b Hb'. rewrite (Hb b Hb'). cbn. by rewrite Hcfg, Hp.
Qed.

(** X14 on a run that builds a collection, updates the stage and builds a
    sub-collection of the first: the second collection is bound to the
    bucket of the updated stage. *)
Lemma reachable_collections_consistent_witness :
  ∃ before call after,
    [Collection.NewCollection (VStr "Users") None;
     Collection.S3DBUpdate Sample.stageDev;
     Collection.SubCollection 0 "a/" (VStr "Users")] = before ++ call :: after ∧
    Process.typeOfCall call = Some (VStr "Users") ∧
    S3DB.getCollectionFQN
      (Collection.s3db
         (Collection.run Sample.resolve Sample.defaults (Process.start Sample.s3db) before))
      (VStr "users")
      = Ok "app-dev-users".
Proof.
  pose (child := {|
    Collection.configuration :=
      Collection.mergedConfiguration Sample.resolve Sample.defaults (VStr "Users") "Users";
    Collection.idPrefix := Some "undefineda/";
    Collection.headBehavior :=
      {| CollectionBehavior.configuration :=
           Collection.mergedConfiguration Sample.resolve Sample.defaults (VStr "Users") "Users";
         CollectionBehavior.fullBucketName := "app-dev-users";
         CollectionBehavior.idPrefix := Some "undefineda/" |};
    Collection.existsBehavior :=
      {| CollectionBehavior.configuration :=
           Collection.mergedConfiguration Sample.resolve Sample.defaults (VStr "Users") "Users";
         CollectionBehavior.fullBucketName := "app-dev-users";
         CollectionBehavior.idPrefix := Some "undefineda/" |};
    Collection.loadBehavior :=
      {| CollectionBehavior.configuration :=
           Collection.mergedConfiguration Sample.resolve Sample.defaults (VStr "Users") "Users";
         CollectionBehavior.fullBucketName := "app-dev-users";
         CollectionBehavior.idPrefix := Some "undefineda/" |};
    Collection.saveBheavior :=
      {| CollectionBehavior.configuration :=
           Collection.mergedConfiguration Sample.resolve Sample.defaults (VStr "Users") "Users";
         CollectionBehavior.fullBucketName := "app-dev-users";
         CollectionBehavior.idPrefix := Some "undefineda/" |};
    Collection.deleteBehavior :=
      {| CollectionBehavior.configuration :=
           Collection.mergedConfiguration Sample.resolve Sample.defaults (VStr "Users") "Users";
         CollectionBehavior.fullBucketName := "app-dev-users";
         CollectionBehavior.idPrefix := Some "undefineda/" |};
    Collection.findBehavior :=
      {| CollectionBehavior.configuration :=
           Collection.mergedConfiguration Sample.resolve Sample.defaults (VStr "Users") "Users";
         CollectionBehavior.fullBucketName := "app-dev-users";
         CollectionBehavior.idPrefix := Some "undefineda/" |} |}).
  destruct (reachable_collections_consistent Sample.resolve Sample.defaults Sample.s3db
              [Collection.NewCollection (VStr "Users") None;
               Collection.S3DBUpdate Sample.stageDev;
               Collection.SubCollection 0 "a/" (VStr "Users")] child)
    as (before & call & after & type & Hcalls & _ & Htype & Hbind & _ & Hb).
  - vm_compute. apply list_elem_of_further, list_elem_of_here.
  - exists before, call, after. split; [exact Hcalls|].
    assert (type = VStr "Users") as ->.
    { vm_compute in Hbind. by injection Hbind as <-. }
    split; [exact Htype|].
    specialize (Hb (Collection.headBehavior child) (list_elem_of_here _ _)) as (_ & _ & Hf).
    assert (prop (Collection.configuration child) "name" = VStr "users") as Hn
      by (vm_compute; reflexivity).
    rewrite Hn in Hf. exact Hf.
Defined.

Section ConfigurationOfARun.
Import Collection Process.

Variable resolve : string → option JsObject.
Variable defaults : JsObject.

Lemma allocate_s3db (w : World) (r : Result Collection) : s3db (allocate w r) = s3db w.
Proof. by destruct r. Qed.

Lemma foldl_spreadUpdate (arguments : list S3DB.Update) (first : S3DB.Update)
    (this : S3DB.S3DBConfiguration) :
  S3DB.update (foldl Updates.spreadUpdate first arguments) this
    = S3DB.update (Updates.spreadAll arguments) (S3DB.update first this).
Proof.
  unfold Updates.spreadAll. revert first this.
  induction arguments as [|u us IH]; intros first this; cbn [foldl].
  - by rewrite update_noUpdate.
  - rewrite IH, <- update_update.
    rewrite (IH (Updates.spreadUpdate Updates.noUpdate u)), <- update_update.
    by rewrite update_noUpdate.
Qed.

Lemma run_s3db (calls : list Call) (w : World) :
  s3db (run resolve defaults w calls)
    = S3DB.update (Updates.spreadAll (updateArguments calls)) (s3db w).
Proof.
  revert w. induction calls as [|call calls IH]; intros w.
  - cbn. by rewrite update_noUpdate.
  - cbn [run foldl]. fold (run resolve defaults (exec resolve defaults w call) calls).
    rewrite IH. destruct call as [type idPrefix|parent prefix newType|configuration];
      cbn [exec updateArguments].
    + by rewrite allocate_s3db.
    + destruct (objects w !! parent); [by rewrite allocate_s3db|done].
    + cbn [s3db]. unfold Updates.spreadAll at 2. cbn [foldl].
      rewrite foldl_spreadUpdate. f_equal.
      by rewrite <- update_update, update_noUpdate.
Qed.

End ConfigurationOfARun.

(** X15. Constructing collections and sub-collections never changes the
    process-wide configuration: after any sequence of calls it is the
    configuration at the start updated once with the spread of the
    arguments of the [S3DB.update] calls, in their order. *)
Theorem run_configuration :
  ∀ resolve defaults (w : Collection.World) (calls : list Collection.Call),
    Collection.s3db (Collection.run resolve defaults w calls)
      = S3DB.update (Updates.spreadAll (Process.updateArguments calls)) (Collection.s3db w) ∧
    (Process.updateArguments calls = [] →
     Collection.s3db (Collection.run resolve defaults w calls) = Collection.s3db w).
Proof.
  intros resolve defaults w calls. split; [apply run_s3db|].
  intros Hnone. by rewrite run_s3db, Hnone, update_noUpdate.
Qed.

(** X15 on a run of two constructions. *)
Lemma run_configuration_witness :
  Collection.s3db
    (Collection.run Sample.resolve Sample.defaults (Process.start Sample.s3db)
       [Collection.NewCollection (VStr "Users") None;
        Collection.SubCollection 0 "a/" (VStr "Users")])
    = Sample.s3db.
Proof.
  destruct (run_configuration Sample.resolve Sample.defaults (Process.start Sample.s3db)
              [Collection.NewCollection (VStr "Users") None;
               Collection.SubCollection 0 "a/" (VStr "Users")]) as (_ & H).
  apply H. reflexivity.
Defined.
